(** * Real-time subtitle pipeline: a shallow embedding and its properties

    The development follows the Python modules of the repository:

    - [modules/translation.py]            ([Module Translation])
    - [modules/language_detection.py]     ([Module LanguageDetection])
    - [modules/subtitle_renderer.py]      ([Module SubtitleRenderer])
    - [modules/audio_capture.py]          ([Module AudioCapture])
    - [modules/speech_to_text.py]         ([Module SpeechToText])
    - [modules/realtime_subtitle_system.py] ([Module RealTimeSubtitleSystem])
    - [app.py]                            ([Module SubtitleApp])
    - [server.py]                         ([Module Server])

    Every method is a computation in a small monad [M S A] over the state
    [S] of the object it belongs to: it may raise a Python exception, it
    updates the object's fields, and it appends to a trace the method
    calls and the calls to external services it performs.  What the
    outside world answers (the HTTP services, the speech SDK, the clock)
    is an explicit argument of the method that consults it.  The
    functions of [server.py], which have few steps, return their result,
    the token they leave and their trace directly. *)

From Stdlib Require Import ZArith NArith List Bool Lia String Ascii.
From Stdlib Require Import Floats.
From stdpp Require Import base decidable option list numbers countable gmap.
Import ListNotations.

Set Warnings "-inexact-float".
Local Open Scope Z_scope.

(* ===================================================================== *)
(** * Python run-time fragments *)
(* ===================================================================== *)

Module Py.

(** ** Strings

    A Python [str] is a sequence of Unicode code points. *)

Definition str : Type := list N.

Definition lit (s : string) : str :=
  List.map N_of_ascii (list_ascii_of_string s).

(** [len(s)] *)
Definition len {A} (l : list A) : Z := Z.of_nat (length l).

(** [str.isspace] on one character: the code points CPython's
    [_PyUnicode_IsWhitespace] accepts. *)
Definition isspace (c : N) : bool :=
  ((0x09 <=? c) && (c <=? 0x0D) ||
   (0x1C <=? c) && (c <=? 0x20) ||
   (c =? 0x85) || (c =? 0xA0) || (c =? 0x1680) ||
   (0x2000 <=? c) && (c <=? 0x200A) ||
   (c =? 0x2028) || (c =? 0x2029) || (c =? 0x202F) ||
   (c =? 0x205F) || (c =? 0x3000))%N.

Fixpoint lstrip (s : str) : str :=
  match s with
  | c :: s' => if isspace c then lstrip s' else s
  | [] => []
  end.

Definition rstrip (s : str) : str := rev (lstrip (rev s)).

(** [s.strip()] *)
Definition strip (s : str) : str := rstrip (lstrip s).

(** Truth value of a sequence: [not s] is [is_empty s]. *)
Definition is_empty {A} (l : list A) : bool :=
  match l with [] => true | _ => false end.

(** [a == b] on strings. *)
Definition eqb (a b : str) : bool := bool_decide (a = b).

(** ** Slices *)

(** [l[i:]] for an integer [i]: a negative [i] counts from the end and is
    clamped at the beginning of the list. *)
Definition slice_from {A} (i : Z) (l : list A) : list A :=
  if i <? 0 then drop (Z.to_nat (Z.max 0 (len l + i))) l
  else drop (Z.to_nat i) l.

(** ** Exceptions *)

Inductive exn : Type :=
| NameError (name : string)
| KeyError (key : string)
| ValueError
| OverflowError
| RequestException      (* raised by [requests.post] or [response.json()] *)
| OSError               (* raised by PyAudio *)
| RuntimeError.         (* raised by the speech SDK *)

Inductive result (A : Type) : Type :=
| Ok (a : A)
| Raised (e : exn).
Arguments Ok {A} a.
Arguments Raised {A} e.

(** ** Floats

    [int(x)] for a float [x]: truncation towards zero; [nan] and the
    infinities raise. *)
Definition int_of_float (x : float) : result Z :=
  match Prim2SF x with
  | S754_zero _ => Ok 0
  | S754_infinity _ => Raised OverflowError
  | S754_nan => Raised ValueError
  | S754_finite s m e =>
      let mag := if 0 <=? e then Z.shiftl (Z.pos m) e
                 else Z.shiftr (Z.pos m) (- e) in
      Ok (if s then - mag else mag)
  end.

End Py.

(* ===================================================================== *)
(** * The trace: method calls and calls to the outside world *)
(* ===================================================================== *)

(** The methods of the components the orchestrator drives. *)
Module Method.
Inductive t : Type :=
| initialize_microphone_capture
| start_recording
| stop_recording
| start_recognition
| stop_recognition
| set_language (language_code : Py.str)
| detect_language (text : Py.str)
| translate_text (text source_language : Py.str)
| show_subtitle (text : Py.str) (speaker : option Py.str)
| fade_oldest_subtitle
| clear.
End Method.

Inductive event : Type :=
| Call (m : Method.t)
  (** PyAudio *)
| audio_open
| stream_start_stream
| stream_stop_stream
  (** Azure speech SDK *)
| SpeechRecognizer (speech_recognition_language : Py.str)
| start_continuous_recognition
| stop_continuous_recognition
  (** [requests.post] to the language service and to the translator *)
| post_languages (text : Py.str)
| post_translate (text from to : Py.str).

Definition is_post (e : event) : bool :=
  match e with
  | post_languages _ | post_translate _ _ _ => true
  | _ => false
  end.

(** The component methods entered, in order. *)
Fixpoint calls (t : list event) : list Method.t :=
  match t with
  | Call m :: t' => m :: calls t'
  | _ :: t' => calls t'
  | [] => []
  end.

(** What a [requests.post] followed by [response.json()] can do: raise, or
    return a status code and a decoded body. *)
Inductive post_outcome (B : Type) : Type :=
| PostRaises
| PostReturns (status_code : Z) (response_json : B).
Arguments PostRaises {B}.
Arguments PostReturns {B} status_code response_json.

(* ===================================================================== *)
(** * The monad of methods *)
(* ===================================================================== *)

Section Monad.
Context {S : Type}.

Definition M (A : Type) : Type := S -> Py.result A * S * list event.

Definition ret {A} (a : A) : M A := fun s => (Py.Ok a, s, []).

Definition bind {A B} (m : M A) (f : A -> M B) : M B :=
  fun s =>
    match m s with
    | (Py.Ok a, s1, t1) =>
        let '(r, s2, t2) := f a s1 in (r, s2, t1 ++ t2)
    | (Py.Raised e, s1, t1) => (Py.Raised e, s1, t1)
    end.

Definition raise {A} (e : Py.exn) : M A := fun s => (Py.Raised e, s, []).

Definition get : M S := fun s => (Py.Ok s, s, []).
Definition put (s : S) : M unit := fun _ => (Py.Ok tt, s, []).
Definition modify (f : S -> S) : M unit := fun s => (Py.Ok tt, f s, []).
Definition emit (e : event) : M unit := fun s => (Py.Ok tt, s, [e]).

(** [try: m  except Exception: h] *)
Definition try_except {A} (m : M A) (h : M A) : M A :=
  fun s =>
    match m s with
    | (Py.Raised _, s1, t1) =>
        let '(r, s2, t2) := h s1 in (r, s2, t1 ++ t2)
    | ok => ok
    end.

Definition of_result {A} (r : Py.result A) : M A := fun s => (r, s, []).
End Monad.
Arguments M : clear implicits.

Declare Scope py_scope.
Delimit Scope py_scope with py.
Notation "x <- m ;; k" := (bind m (fun x => k))
  (at level 100, m at next level, right associativity) : py_scope.
Notation "m ;; k" := (bind m (fun _ => k))
  (at level 100, right associativity) : py_scope.
Local Open Scope py_scope.

(** Running a method of a component held in a field of a larger object. *)
Definition lift {S C A} (proj : S -> C) (upd : C -> S -> S) (m : M C A)
  : M S A :=
  fun s => let '(r, c, t) := m (proj s) in (r, upd c s, t).

(** Selectors on the outcome of a run. *)
Definition outcome {S A} (x : Py.result A * S * list event) : Py.result A :=
  fst (fst x).
Definition final {S A} (x : Py.result A * S * list event) : S :=
  snd (fst x).
Definition trace {S A} (x : Py.result A * S * list event) : list event :=
  snd x.

(* ===================================================================== *)
(** * modules/translation.py *)
(* ===================================================================== *)

Module Translation.

Record t : Type := {
  target_language : Py.str
}.

(** The dictionary [translate_text] returns. *)
Record translation_result : Type := {
  translated_text : Py.str;
  original_text : Py.str
}.

(** The translator's answer, as far as [translate_text] inspects it: a
    list of documents, each of which may carry a ['translations'] list
    whose items may carry a ['text']. *)
Record translation_item : Type := { item_text : option Py.str }.
Record document : Type := { translations : option (list translation_item) }.

Definition set_target_language (language_code : Py.str) : M t unit :=
  put {| target_language := language_code |}.

(** [response_json[0]['translations'][0]['text']], reached only after the
    guards of the [if]; a missing ['text'] is a [KeyError]. *)
Definition first_translation (response_json : list document) : M t Py.str :=
  match response_json with
  | {| translations := Some ({| item_text := Some s |} :: _) |} :: _ => ret s
  | _ => raise (Py.KeyError "text")
  end.

Definition guard_ok (status_code : Z) (response_json : list document) : bool :=
  (status_code =? 200) &&
  (0 <? Py.len response_json) &&
  match response_json with
  | {| translations := Some trs |} :: _ => 0 <? Py.len trs
  | _ => false
  end.

Definition translate_text (net : post_outcome (list document))
    (text source_language : Py.str) : M t translation_result :=
  emit (Call (Method.translate_text text source_language)) ;;
  self <- get ;;
  if Py.is_empty text || Py.is_empty (Py.strip text) then
    ret {| translated_text := []; original_text := text |}
  else if Py.eqb source_language (target_language self) then
    ret {| translated_text := text; original_text := text |}
  else
    try_except
      (emit (post_translate text source_language (target_language self)) ;;
       match net with
       | PostRaises => raise Py.RequestException
       | PostReturns status_code response_json =>
           if guard_ok status_code response_json then
             s <- first_translation response_json ;;
             ret {| translated_text := s; original_text := text |}
           else
             ret {| translated_text := text; original_text := text |}
       end)
      (ret {| translated_text := text; original_text := text |}).

End Translation.

(* ===================================================================== *)
(** * modules/language_detection.py *)
(* ===================================================================== *)

Module LanguageDetection.

(** The dictionary [{"language_code": ..., "confidence": ...}]. *)
Record hypothesis : Type := {
  language_code : Py.str;
  confidence : float
}.

Record t : Type := {
  cached_language : option hypothesis;
  confidence_threshold : float;
  cache_expiry : float;
  last_detection_time : float
}.

(** [__init__] *)
Definition init : t := {|
  cached_language := None;
  confidence_threshold := 0.7;
  cache_expiry := 60;
  last_detection_time := 0
|}.

(** The built-in default [{"language_code": "en", "confidence": 1.0}]. *)
Definition default_hypothesis : hypothesis :=
  {| language_code := Py.lit "en"; confidence := 1 |}.

(** [self.cached_language or {"language_code": "en", "confidence": 1.0}]:
    a stored dictionary has two keys, hence is true. *)
Definition cached_or_default (self : t) : hypothesis :=
  match cached_language self with
  | Some h => h
  | None => default_hypothesis
  end.

(** The language service's answer, as far as [detect_language] inspects
    it: a ['documents'] list may be present, its first document may carry
    a ['detectedLanguage'], whose two fields may be present. *)
Record detected_language : Type := {
  iso6391Name : option Py.str;
  confidenceScore : option float
}.
Record document : Type := { detectedLanguage : option detected_language }.
Record response : Type := { documents : option (list document) }.

(** The two readings of [time.time()] a call may take. *)
Record clock : Type := {
  time_at_entry : float;
  time_at_update : float
}.

Definition set_cached (h : hypothesis) (self : t) : t :=
  {| cached_language := Some h;
     confidence_threshold := confidence_threshold self;
     cache_expiry := cache_expiry self;
     last_detection_time := last_detection_time self |}.

Definition set_last_detection_time (x : float) (self : t) : t :=
  {| cached_language := cached_language self;
     confidence_threshold := confidence_threshold self;
     cache_expiry := cache_expiry self;
     last_detection_time := x |}.

(** [len(text.strip()) < 10] *)
Definition too_short (text : Py.str) : bool :=
  Py.len (Py.strip text) <? 10.

(** [time.time() - self.last_detection_time < self.cache_expiry and
    self.cached_language] *)
Definition cache_is_recent (now : float) (self : t) : bool :=
  PrimFloat.ltb (PrimFloat.sub now (last_detection_time self))
                (cache_expiry self)
  && match cached_language self with Some _ => true | None => false end.

(** The guard of the inner [if]: status 200, a non-empty ['documents']
    whose first element has a ['detectedLanguage']. *)
Definition first_detected (status_code : Z) (r : response)
  : option detected_language :=
  if status_code =? 200 then
    match documents r with
    | Some (d :: _) => detectedLanguage d
    | _ => None
    end
  else None.

Definition subscript {A} (key : string) (o : option A) : M t A :=
  match o with
  | Some a => ret a
  | None => raise (Py.KeyError key)
  end.

Definition detect_language (now : clock) (net : post_outcome response)
    (text : Py.str) : M t hypothesis :=
  emit (Call (Method.detect_language text)) ;;
  self <- get ;;
  if Py.is_empty text || too_short text
     || cache_is_recent (time_at_entry now) self then
    ret (cached_or_default self)
  else
    try_except
      (emit (post_languages text) ;;
       match net with
       | PostRaises => raise Py.RequestException
       | PostReturns status_code response_json =>
           match first_detected status_code response_json with
           | Some detected =>
               conf <- subscript "confidenceScore" (confidenceScore detected) ;;
               if PrimFloat.ltb (confidence_threshold self) conf then
                 iso <- subscript "iso6391Name" (iso6391Name detected) ;;
                 let h := {| language_code := iso; confidence := conf |} in
                 modify (set_cached h) ;;
                 modify (set_last_detection_time (time_at_update now)) ;;
                 ret h
               else
                 self' <- get ;; ret (cached_or_default self')
           | None =>
               self' <- get ;; ret (cached_or_default self')
           end
       end)
      (self' <- get ;; ret (cached_or_default self')).

End LanguageDetection.

(* ===================================================================== *)
(** * modules/subtitle_renderer.py *)
(* ===================================================================== *)

Module SubtitleRenderer.

(** ** The Tk root window

    One clock, in milliseconds, is read both by [time.time()] and by Tk's
    timer queue.  [root.after(ms, f)] queues a timer due [ms] milliseconds
    from now (a negative [ms] counts as [0]) and returns its identifier;
    [root.after_cancel(id)] removes it, and is silent on an identifier that
    is not queued.  The only callback the renderer ever queues is
    [fade_oldest_subtitle]. *)
Record Tk : Type := {
  now : Z;
  timers : list (N * Z);      (* identifier, due time *)
  next_timer : N;
  withdrawn : bool
}.

Record subtitle : Type := {
  text : Py.str;
  speaker : option Py.str;
  timestamp : Z
}.

Record t : Type := {
  fade_timeout : float;
  max_lines : Z;
  subtitles : list subtitle;
  fade_timer : option N;
  subtitle_labels : list Py.str;
  root : Tk
}.

Definition set_subtitles (x : list subtitle) (self : t) : t :=
  {| fade_timeout := fade_timeout self; max_lines := max_lines self;
     subtitles := x; fade_timer := fade_timer self;
     subtitle_labels := subtitle_labels self; root := root self |}.

Definition set_fade_timer (x : option N) (self : t) : t :=
  {| fade_timeout := fade_timeout self; max_lines := max_lines self;
     subtitles := subtitles self; fade_timer := x;
     subtitle_labels := subtitle_labels self; root := root self |}.

Definition set_subtitle_labels (x : list Py.str) (self : t) : t :=
  {| fade_timeout := fade_timeout self; max_lines := max_lines self;
     subtitles := subtitles self; fade_timer := fade_timer self;
     subtitle_labels := x; root := root self |}.

Definition set_root (x : Tk) (self : t) : t :=
  {| fade_timeout := fade_timeout self; max_lines := max_lines self;
     subtitles := subtitles self; fade_timer := fade_timer self;
     subtitle_labels := subtitle_labels self; root := x |}.

Definition set_now (x : Z) (w : Tk) : Tk :=
  {| now := x; timers := timers w; next_timer := next_timer w;
     withdrawn := withdrawn w |}.

Definition set_timers (x : list (N * Z)) (w : Tk) : Tk :=
  {| now := now w; timers := x; next_timer := next_timer w;
     withdrawn := withdrawn w |}.

Definition set_withdrawn (x : bool) (w : Tk) : Tk :=
  {| now := now w; timers := timers w; next_timer := next_timer w;
     withdrawn := x |}.

(** [self.root.after(ms, self.fade_oldest_subtitle)] *)
Definition after (ms : Z) : M t N :=
  self <- get ;;
  let w := root self in
  let id := next_timer w in
  put (set_root {| now := now w;
                   timers := timers w ++ [(id, now w + Z.max 0 ms)];
                   next_timer := N.succ id;
                   withdrawn := withdrawn w |} self) ;;
  ret id.

(** [self.root.after_cancel(id)] *)
Definition after_cancel (id : N) : M t unit :=
  modify (fun self =>
    set_root (set_timers
                (List.filter (fun tm => negb (N.eqb (fst tm) id))
                             (timers (root self)))
                (root self)) self).

(** [self.root.deiconify()] and [self.root.withdraw()] *)
Definition deiconify : M t unit :=
  modify (fun self => set_root (set_withdrawn false (root self)) self).
Definition withdraw : M t unit :=
  modify (fun self => set_root (set_withdrawn true (root self)) self).

(** The renderer once constructed and attached to a root window:
    [__init__] with the options [fade_timeout] and [max_lines], and the
    [root] that [initialize(parent_window=root)] stores. *)
Definition init (fade_timeout : float) (max_lines : Z) (root : Tk) : t :=
  {| fade_timeout := fade_timeout; max_lines := max_lines;
     subtitles := []; fade_timer := None; subtitle_labels := [];
     root := root |}.

(** The rest of [initialize]: one empty label per
    [range(self.max_lines)]. *)
Definition initialize : M t bool :=
  self <- get ;;
  put (set_subtitle_labels
         (subtitle_labels self ++ repeat [] (Z.to_nat (max_lines self)))
         self) ;;
  ret true.

(** The text a label shows for a subtitle. *)
Definition display_text (s : subtitle) : Py.str :=
  match speaker s with
  | Some (c :: sp) => (c :: sp) ++ Py.lit ": " ++ text s
  | _ => text s
  end.

(** Every label is emptied, then label [i] shows subtitle [i] as long as
    there is a label [i]. *)
Fixpoint fill (labels : list Py.str) (subs : list subtitle) : list Py.str :=
  match labels with
  | [] => []
  | _ :: labels' =>
      match subs with
      | [] => [] :: fill labels' []
      | s :: subs' => display_text s :: fill labels' subs'
      end
  end.

Definition update_subtitle_display : M t unit :=
  modify (fun self =>
    set_subtitle_labels (fill (subtitle_labels self) (subtitles self)) self).

(** [int(self.fade_timeout * 1000)] *)
Definition fade_ms (self : t) : Py.result Z :=
  Py.int_of_float (PrimFloat.mul (fade_timeout self) 1000).

Section Globals.
(** [parent_window] is a parameter of [initialize] only.  In
    [show_subtitle], [fade_oldest_subtitle], [clear] and [cleanup] it is
    a free name, which Python looks up in the module's global namespace
    when the line runs: [None] when the name is unbound there, else the
    truth value of what it is bound to. *)
Variable parent_window : option bool.

Definition load_parent_window : M t bool :=
  match parent_window with
  | Some b => ret b
  | None => raise (Py.NameError "parent_window")
  end.

(** [if self.fade_timer: after_cancel(...); self.fade_timer = None] *)
Definition cancel_fade_timer : M t unit :=
  self <- get ;;
  match fade_timer self with
  | Some id => after_cancel id ;; modify (set_fade_timer None)
  | None => ret tt
  end.

(** [self.fade_timer = self.root.after(int(self.fade_timeout * 1000),
    self.fade_oldest_subtitle)] *)
Definition schedule_fade : M t unit :=
  self <- get ;;
  ms <- of_result (fade_ms self) ;;
  id <- after ms ;;
  modify (set_fade_timer (Some id)).

Definition show_subtitle (text : Py.str) (speaker : option Py.str)
  : M t unit :=
  emit (Call (Method.show_subtitle text speaker)) ;;
  cancel_fade_timer ;;
  self <- get ;;
  let subtitle := {| text := text; speaker := speaker;
                     timestamp := now (root self) |} in
  modify (set_subtitles (subtitles self ++ [subtitle])) ;;
  self <- get ;;
  (if max_lines self <? Py.len (subtitles self) then
     modify (set_subtitles
               (Py.slice_from (- max_lines self) (subtitles self)))
   else ret tt) ;;
  update_subtitle_display ;;
  pw <- load_parent_window ;;
  self <- get ;;
  (if negb pw && withdrawn (root self) then deiconify else ret tt) ;;
  schedule_fade.

Definition fade_oldest_subtitle : M t unit :=
  emit (Call Method.fade_oldest_subtitle) ;;
  self <- get ;;
  match subtitles self with
  | [] => ret tt
  | _ :: rest =>
      modify (set_subtitles rest) ;;
      update_subtitle_display ;;
      if negb (Py.is_empty rest) then schedule_fade
      else
        modify (set_fade_timer None) ;;
        pw <- load_parent_window ;;
        if negb pw then withdraw else ret tt
  end.

Definition clear : M t unit :=
  emit (Call Method.clear) ;;
  modify (set_subtitles []) ;;
  update_subtitle_display ;;
  cancel_fade_timer ;;
  pw <- load_parent_window ;;
  if negb pw then withdraw else ret tt.

(** ** The Tk main loop

    A queued timer that is due is taken off the queue and its callback
    run; an exception the callback raises is reported by Tk and goes no
    further. *)
Definition fire (id : N) (self : t) : t :=
  final (fade_oldest_subtitle
           (set_root (set_timers
                        (List.filter (fun tm => negb (N.eqb (fst tm) id))
                                     (timers (root self)))
                        (root self)) self)).

(** The first queued timer with the least due time. *)
Fixpoint earliest (l : list (N * Z)) : option (N * Z) :=
  match l with
  | [] => None
  | tm :: l' =>
      match earliest l' with
      | Some tm' => if snd tm' <? snd tm then Some tm' else Some tm
      | None => Some tm
      end
  end.

Definition tick (x : Z) (self : t) : t :=
  set_root (set_now (Z.max x (now (root self))) (root self)) self.

(** Let time pass until [limit], running the timers that fall due on
    the way, each at its due time. *)
Fixpoint mainloop (fuel : nat) (limit : Z) (self : t) : t :=
  match earliest (timers (root self)) with
  | Some (id, due) =>
      if due <=? limit then
        match fuel with
        | O => self
        | Datatypes.S fuel' => mainloop fuel' limit (fire id (tick due self))
        end
      else tick limit self
  | None => tick limit self
  end.

(** Each expiry takes a timer off the queue and queues one only after
    removing a subtitle, so this many rounds are enough. *)
Definition rounds (self : t) : nat :=
  (2 * length (subtitles self) + length (timers (root self)))%nat.

Definition mainloop_until (limit : Z) (self : t) : t :=
  mainloop (rounds self) limit self.

(** ** What the renderer can go through *)
Inductive step : t -> t -> Prop :=
| step_show text speaker self :
    step self (final (show_subtitle text speaker self))
| step_clear self :
    step self (final (clear self))
| step_tick x self :
    step self (tick x self)
| step_fire id due self :
    In (id, due) (timers (root self)) ->
    due <= now (root self) ->
    step self (fire id self).

Inductive reachable (fade_timeout : float) (max_lines : Z) : t -> Prop :=
| reachable_init w :
    timers w = [] ->
    reachable fade_timeout max_lines
              (final (initialize (init fade_timeout max_lines w)))
| reachable_step self self' :
    reachable fade_timeout max_lines self ->
    step self self' ->
    reachable fade_timeout max_lines self'.
End Globals.

(** The module has no global of that name. *)
Definition module_parent_window : option bool := None.

End SubtitleRenderer.

(* ===================================================================== *)
(** * modules/audio_capture.py *)
(* ===================================================================== *)

Module AudioCapture.

Record t : Type := {
  stream : bool;          (* [self.stream] is set *)
  is_recording : bool
}.

Definition init : t := {| stream := false; is_recording := false |}.

Definition set_stream (x : bool) (self : t) : t :=
  {| stream := x; is_recording := is_recording self |}.
Definition set_is_recording (x : bool) (self : t) : t :=
  {| stream := stream self; is_recording := x |}.

(** [opens] tells whether [self.audio.open(...)] returns a stream or
    raises. *)
Definition initialize_microphone_capture (opens : bool) : M t bool :=
  emit (Call Method.initialize_microphone_capture) ;;
  try_except
    (emit audio_open ;;
     if opens then modify (set_stream true) ;; ret true
     else raise Py.OSError)
    (ret false).

Definition start_recording : M t bool :=
  emit (Call Method.start_recording) ;;
  self <- get ;;
  if stream self && negb (is_recording self) then
    modify (set_is_recording true) ;;
    emit stream_start_stream ;;
    ret true
  else ret false.

Definition stop_recording : M t bool :=
  emit (Call Method.stop_recording) ;;
  self <- get ;;
  if stream self && is_recording self then
    modify (set_is_recording false) ;;
    emit stream_stop_stream ;;
    ret true
  else ret false.

End AudioCapture.

(* ===================================================================== *)
(** * modules/speech_to_text.py *)
(* ===================================================================== *)

Module SpeechToText.

Record t : Type := {
  speech_recognition_language : Py.str;  (* of [self.speech_config] *)
  recognizer : bool;                     (* [self.recognizer] is set *)
  is_recognizing : bool;
  transcription_callback : bool;         (* the callback is set *)
  language_map : gmap Py.str Py.str
}.

Definition init (default_language : Py.str) : t := {|
  speech_recognition_language := default_language;
  recognizer := false;
  is_recognizing := false;
  transcription_callback := false;
  language_map :=
    list_to_map [ (Py.lit "en", Py.lit "en-US"); (Py.lit "es", Py.lit "es-ES");
                  (Py.lit "fr", Py.lit "fr-FR"); (Py.lit "de", Py.lit "de-DE");
                  (Py.lit "ja", Py.lit "ja-JP"); (Py.lit "zh", Py.lit "zh-CN") ]
|}.

Definition set_speech_recognition_language (x : Py.str) (self : t) : t :=
  {| speech_recognition_language := x; recognizer := recognizer self;
     is_recognizing := is_recognizing self;
     transcription_callback := transcription_callback self;
     language_map := language_map self |}.
Definition set_recognizer (x : bool) (self : t) : t :=
  {| speech_recognition_language := speech_recognition_language self;
     recognizer := x; is_recognizing := is_recognizing self;
     transcription_callback := transcription_callback self;
     language_map := language_map self |}.
Definition set_is_recognizing (x : bool) (self : t) : t :=
  {| speech_recognition_language := speech_recognition_language self;
     recognizer := recognizer self; is_recognizing := x;
     transcription_callback := transcription_callback self;
     language_map := language_map self |}.
Definition set_transcription_callback : M t unit :=
  modify (fun self =>
    {| speech_recognition_language := speech_recognition_language self;
       recognizer := recognizer self; is_recognizing := is_recognizing self;
       transcription_callback := true;
       language_map := language_map self |}).

(** The dictionary handed to the transcription callback. *)
Record transcription_result : Type := {
  text : Py.str;
  is_final : bool;
  language_code : Py.str
}.

(** What the SDK does when asked to start: it may raise when the
    recognizer is constructed, or when continuous recognition is
    started. *)
Inductive sdk_start : Type :=
| SdkStarts
| SdkConstructorRaises
| SdkStartRaises.

Definition stop_recognition : M t unit :=
  emit (Call Method.stop_recognition) ;;
  self <- get ;;
  if recognizer self && is_recognizing self then
    emit stop_continuous_recognition ;;
    modify (set_is_recognizing false)
  else ret tt.

Definition set_language (language_code : Py.str) : M t unit :=
  emit (Call (Method.set_language language_code)) ;;
  self <- get ;;
  (if recognizer self then stop_recognition else ret tt) ;;
  self <- get ;;
  let full_language_code :=
    default language_code (language_map self !! language_code) in
  modify (set_speech_recognition_language full_language_code).

Definition start_recognition (sdk : sdk_start) : M t unit :=
  emit (Call Method.start_recognition) ;;
  self <- get ;;
  (if is_recognizing self then stop_recognition else ret tt) ;;
  self <- get ;;
  emit (SpeechRecognizer (speech_recognition_language self)) ;;
  match sdk with
  | SdkConstructorRaises => raise Py.RuntimeError
  | _ =>
      modify (set_recognizer true) ;;
      emit start_continuous_recognition ;;
      match sdk with
      | SdkStartRaises => raise Py.RuntimeError
      | _ => modify (set_is_recognizing true)
      end
  end.

(** The interim and the final callbacks: the dictionary they hand to the
    transcription callback, when they call it.  [recognized_speech] is
    [event.result.reason == ResultReason.RecognizedSpeech]. *)
Definition _recognizing_callback (event_text : Py.str) (self : t)
  : option transcription_result :=
  if transcription_callback self then
    Some {| text := event_text; is_final := false;
            language_code := speech_recognition_language self |}
  else None.

Definition _recognized_callback (recognized_speech : bool)
    (event_text : Py.str) (self : t) : option transcription_result :=
  if recognized_speech && transcription_callback self then
    Some {| text := event_text; is_final := true;
            language_code := speech_recognition_language self |}
  else None.

(** The SDK's cancellation and end-of-session callbacks. *)
Definition _canceled_callback : M t unit :=
  modify (set_is_recognizing false).

Definition _session_stopped_callback : M t unit :=
  modify (set_is_recognizing false).

(** [cleanup]: [if self.recognizer: self.stop_recognition();
    self.recognizer = None] *)
Definition cleanup : M t unit :=
  self <- get ;;
  if recognizer self then
    stop_recognition ;;
    modify (set_recognizer false)
  else ret tt.

End SpeechToText.

(* ===================================================================== *)
(** * modules/realtime_subtitle_system.py *)
(* ===================================================================== *)

Module RealTimeSubtitleSystem.

(** The orchestrator after [initialize]: every module instance is set,
    except the renderer, which the GUI thread sets when it gets to it. *)
Record t : Type := {
  audio_capture : AudioCapture.t;
  language_detection : LanguageDetection.t;
  speech_to_text : SpeechToText.t;
  translation : Translation.t;
  subtitle_renderer : option SubtitleRenderer.t;
  current_language : Py.str;
  is_running : bool
}.

Definition set_audio_capture (x : AudioCapture.t) (self : t) : t :=
  {| audio_capture := x; language_detection := language_detection self;
     speech_to_text := speech_to_text self; translation := translation self;
     subtitle_renderer := subtitle_renderer self;
     current_language := current_language self;
     is_running := is_running self |}.
Definition set_language_detection (x : LanguageDetection.t) (self : t) : t :=
  {| audio_capture := audio_capture self; language_detection := x;
     speech_to_text := speech_to_text self; translation := translation self;
     subtitle_renderer := subtitle_renderer self;
     current_language := current_language self;
     is_running := is_running self |}.
Definition set_speech_to_text (x : SpeechToText.t) (self : t) : t :=
  {| audio_capture := audio_capture self;
     language_detection := language_detection self;
     speech_to_text := x; translation := translation self;
     subtitle_renderer := subtitle_renderer self;
     current_language := current_language self;
     is_running := is_running self |}.
Definition set_translation (x : Translation.t) (self : t) : t :=
  {| audio_capture := audio_capture self;
     language_detection := language_detection self;
     speech_to_text := speech_to_text self; translation := x;
     subtitle_renderer := subtitle_renderer self;
     current_language := current_language self;
     is_running := is_running self |}.
Definition set_subtitle_renderer (x : SubtitleRenderer.t) (self : t) : t :=
  {| audio_capture := audio_capture self;
     language_detection := language_detection self;
     speech_to_text := speech_to_text self; translation := translation self;
     subtitle_renderer := Some x;
     current_language := current_language self;
     is_running := is_running self |}.
Definition set_current_language (x : Py.str) (self : t) : t :=
  {| audio_capture := audio_capture self;
     language_detection := language_detection self;
     speech_to_text := speech_to_text self; translation := translation self;
     subtitle_renderer := subtitle_renderer self;
     current_language := x;
     is_running := is_running self |}.
Definition set_is_running (x : bool) (self : t) : t :=
  {| audio_capture := audio_capture self;
     language_detection := language_detection self;
     speech_to_text := speech_to_text self; translation := translation self;
     subtitle_renderer := subtitle_renderer self;
     current_language := current_language self;
     is_running := x |}.

(** Calls into the module instances. *)
Definition on_audio_capture {A} : M AudioCapture.t A -> M t A :=
  lift audio_capture set_audio_capture.
Definition on_language_detection {A} : M LanguageDetection.t A -> M t A :=
  lift language_detection set_language_detection.
Definition on_speech_to_text {A} : M SpeechToText.t A -> M t A :=
  lift speech_to_text set_speech_to_text.
Definition on_translation {A} : M Translation.t A -> M t A :=
  lift translation set_translation.

(** [if self.subtitle_renderer: self.subtitle_renderer.m(...)] *)
Definition if_subtitle_renderer (m : M SubtitleRenderer.t unit) : M t unit :=
  self <- get ;;
  match subtitle_renderer self with
  | Some r => lift (fun _ => r) set_subtitle_renderer m
  | None => ret tt
  end.

(** What the outside world does during one run of the transcription
    handler. *)
Record world : Type := {
  detection_clock : LanguageDetection.clock;
  detection_net : post_outcome LanguageDetection.response;
  translation_net : post_outcome (list Translation.document)
}.

Section Globals.
(** The global [parent_window] of [modules/subtitle_renderer.py]. *)
Variable parent_window : option bool.

Definition start (microphone_opens : bool) (sdk : SpeechToText.sdk_start)
  : M t bool :=
  self <- get ;;
  if is_running self then ret false
  else
    mic_initialized <-
      on_audio_capture
        (AudioCapture.initialize_microphone_capture microphone_opens) ;;
    if negb mic_initialized then ret false
    else
      on_audio_capture AudioCapture.start_recording ;;
      on_speech_to_text (SpeechToText.start_recognition sdk) ;;
      modify (set_is_running true) ;;
      ret true.

Definition stop : M t bool :=
  self <- get ;;
  if negb (is_running self) then ret false
  else
    on_audio_capture AudioCapture.stop_recording ;;
    on_speech_to_text SpeechToText.stop_recognition ;;
    if_subtitle_renderer (SubtitleRenderer.clear parent_window) ;;
    modify (set_is_running false) ;;
    ret true.

(** [_handle_transcription] is a coroutine function: this is one run of
    its body from beginning to end.  The coroutines it awaits,
    [detect_language] and [translate_text], never suspend. *)
Definition _handle_transcription (w : world)
    (transcription_result : SpeechToText.transcription_result) : M t unit :=
  self <- get ;;
  if negb (is_running self)
     || Py.is_empty (SpeechToText.text transcription_result) then ret tt
  else
    let text := SpeechToText.text transcription_result in
    let is_final := SpeechToText.is_final transcription_result in
    (if is_final && (15 <? Py.len text) then
       detected_language <-
         on_language_detection
           (LanguageDetection.detect_language
              (detection_clock w) (detection_net w) text) ;;
       self <- get ;;
       if negb (Py.eqb (LanguageDetection.language_code detected_language)
                       (current_language self)) then
         modify (set_current_language
                   (LanguageDetection.language_code detected_language)) ;;
         self <- get ;;
         on_speech_to_text
           (SpeechToText.set_language (current_language self))
       else ret tt
     else ret tt) ;;
    self <- get ;;
    translation_result <-
      on_translation
        (Translation.translate_text (translation_net w) text
                                    (current_language self)) ;;
    if_subtitle_renderer
      (SubtitleRenderer.show_subtitle parent_window
         (Translation.translated_text translation_result) None).

Definition set_target_language (language_code : Py.str) : M t unit :=
  on_translation (Translation.set_target_language language_code).
End Globals.

End RealTimeSubtitleSystem.

(* ===================================================================== *)
(** * app.py *)
(* ===================================================================== *)

Module SubtitleApp.

(** The window of the application, as far as its callbacks go: whether
    each button is enabled ([state=tk.NORMAL]), the text of the status
    label, and the subtitle system. *)
Record t : Type := {
  start_button : bool;
  stop_button : bool;
  status_var : Py.str;
  subtitle_system : RealTimeSubtitleSystem.t
}.

(** The application once [__init__] and [initialize_system] are done. *)
Definition init (system : RealTimeSubtitleSystem.t) : t := {|
  start_button := true;
  stop_button := false;
  status_var := Py.lit "Ready";
  subtitle_system := system
|}.

Definition set_start_button (x : bool) (self : t) : t :=
  {| start_button := x; stop_button := stop_button self;
     status_var := status_var self;
     subtitle_system := subtitle_system self |}.
Definition set_stop_button (x : bool) (self : t) : t :=
  {| start_button := start_button self; stop_button := x;
     status_var := status_var self;
     subtitle_system := subtitle_system self |}.
Definition set_status_var (x : Py.str) (self : t) : t :=
  {| start_button := start_button self; stop_button := stop_button self;
     status_var := x; subtitle_system := subtitle_system self |}.
Definition set_subtitle_system (x : RealTimeSubtitleSystem.t) (self : t)
  : t :=
  {| start_button := start_button self; stop_button := stop_button self;
     status_var := status_var self; subtitle_system := x |}.

Definition on_subtitle_system {A}
  : M RealTimeSubtitleSystem.t A -> M t A :=
  lift subtitle_system set_subtitle_system.

Definition start_system (microphone_opens : bool)
    (sdk : SpeechToText.sdk_start) : M t unit :=
  modify (set_status_var (Py.lit "Starting...")) ;;
  success <-
    on_subtitle_system (RealTimeSubtitleSystem.start microphone_opens sdk) ;;
  if success then
    modify (set_start_button false) ;;
    modify (set_stop_button true) ;;
    modify (set_status_var (Py.lit "Running"))
  else modify (set_status_var (Py.lit "Start failed")).

Section Globals.
(** The global [parent_window] of [modules/subtitle_renderer.py]. *)
Variable parent_window : option bool.

Definition stop_system : M t unit :=
  modify (set_status_var (Py.lit "Stopping...")) ;;
  success <-
    on_subtitle_system (RealTimeSubtitleSystem.stop parent_window) ;;
  if success then
    modify (set_start_button true) ;;
    modify (set_stop_button false) ;;
    modify (set_status_var (Py.lit "Stopped"))
  else modify (set_status_var (Py.lit "Stop failed")).
End Globals.

Definition change_language (language : Py.str) : M t unit :=
  on_subtitle_system (RealTimeSubtitleSystem.set_target_language language) ;;
  modify (set_status_var (Py.lit "Language changed to " ++ language)).

(** Tk runs a callback and reports the exception it raises, if any: the
    window is left as the callback left it. *)
Definition callback (m : M t unit) (self : t) : t := final (m self).

(** What can happen to the window, one event at a time: a press of
    either button, a choice in the language box, a transcript from the
    recognizer, and the overlay's main loop running its timers up to
    some time. *)
Inductive step (parent_window : option bool) : t -> t -> Prop :=
| step_start microphone_opens sdk self :
    step parent_window self
      (callback (start_system microphone_opens sdk) self)
| step_stop self :
    step parent_window self (callback (stop_system parent_window) self)
| step_change_language language self :
    step parent_window self (callback (change_language language) self)
| step_transcription w transcription_result self :
    step parent_window self
      (set_subtitle_system
         (final (RealTimeSubtitleSystem._handle_transcription parent_window
                   w transcription_result (subtitle_system self)))
         self)
| step_mainloop limit r self :
    RealTimeSubtitleSystem.subtitle_renderer (subtitle_system self)
    = Some r ->
    step parent_window self
      (set_subtitle_system
         (RealTimeSubtitleSystem.set_subtitle_renderer
            (SubtitleRenderer.mainloop_until parent_window limit r)
            (subtitle_system self))
         self).

Inductive reachable (parent_window : option bool) (self : t) : t -> Prop :=
| reachable_refl : reachable parent_window self self
| reachable_step self1 self2 :
    reachable parent_window self self1 ->
    step parent_window self1 self2 ->
    reachable parent_window self self2.

End SubtitleApp.

(* ===================================================================== *)
(** * server.py *)
(* ===================================================================== *)

Module Server.

(** What a client sends with an ["audio_chunk"] event: a [bytes] object,
    or anything else. *)
Inductive payload : Type :=
| Bytes (audio_data : list Byte.byte)
| NotBytes.

(** The exceptions the module raises itself, by their messages:
    [ValueError("Audio data must be in bytes format")],
    [ValueError(f"Audio too short: {n} bytes, need 16000.0")],
    [Exception("Azure token refresh failed")]. *)
Inductive error : Type :=
| AudioMustBeBytes
| AudioTooShort (n : nat)
| TokenRefreshFailed.

Inductive result (A : Type) : Type :=
| Returns (a : A)
| Raises (e : error).
Arguments Returns {A} a.
Arguments Raises {A} e.

(** The requests of the module and the events it sends to a client, in
    the room of that client. *)
Inductive event : Type :=
| post_issuetoken
| post_recognition (token : option Py.str) (audio_data : list Byte.byte)
| post_translate (text to : Py.str)
| emit_connection_success (sid : Py.str)
| emit_translation_result
    (sid original translated detectedLanguage : Py.str)
| emit_processing_error (sid : Py.str) (e : error).

Definition is_emit (e : event) : bool :=
  match e with
  | emit_connection_success _ | emit_translation_result _ _ _ _
  | emit_processing_error _ _ => true
  | _ => false
  end.

(** [class AzureToken] *)
Record AzureToken : Type := {
  token : option Py.str;
  expires_at : float
}.

(** [azure_token = AzureToken()] *)
Definition azure_token : AzureToken := {| token := None; expires_at := 0 |}.

(** What the outside world does during one event from a client: the two
    readings of [time.time()], the text of the token service's answer,
    the ['RecognitionStatus'] and the ['DisplayText'] of the recognition
    service's answer, each of which may be missing, and the first
    translation of the translator's answer.  [None] stands for a request
    that raises, a status [raise_for_status] refuses, or a body of
    another shape.  A ['DisplayText'] and a translation that are present
    are strings. *)
Record world : Type := {
  time_at_check : float;
  time_at_refresh : float;
  issuetoken : option Py.str;
  recognition : option (option Py.str * option Py.str);
  translation : option Py.str
}.

(** [AzureToken.refresh] *)
Definition refresh (w : world) (self : AzureToken)
  : bool * AzureToken * list event :=
  match issuetoken w with
  | Some text =>
      (true,
       {| token := Some text;
          expires_at := PrimFloat.add (time_at_refresh w) 540 |},
       [post_issuetoken])
  | None => (false, self, [post_issuetoken])
  end.

(** [len(audio_data) < required_bytes], with [required_bytes] the float
    [16000 * 2 * 0.5]. *)
Definition validate_audio_format (audio_data : list Byte.byte)
  : option error :=
  if Z.of_nat (length audio_data) <? 16000
  then Some (AudioTooShort (length audio_data)) else None.

(** [translate_text]; [translator_key] tells whether [TRANSLATOR_KEY] is
    set to a non-empty string. *)
Definition translate_text (translator_key : bool) (w : world)
    (text target_language : Py.str) : Py.str * list event :=
  if Py.is_empty text || negb translator_key then (text, [])
  else
    (match translation w with
     | Some translation => translation
     | None => text
     end,
     [post_translate text target_language]).

(** [result["DisplayText"] if result["RecognitionStatus"] == "Success"
    else ""], inside the [try] block whose handler returns [""]. *)
Definition recognized_text (w : world) : Py.str :=
  match recognition w with
  | Some (Some status, display_text) =>
      if Py.eqb status (Py.lit "Success") then
        match display_text with
        | Some text => text
        | None => []
        end
      else []
  | _ => []
  end.

(** [not azure_token.token] *)
Definition no_token (self : AzureToken) : bool :=
  match token self with
  | Some text => Py.is_empty text
  | None => true
  end.

Definition speech_to_text (w : world) (audio_data : list Byte.byte)
    (self : AzureToken) : result Py.str * AzureToken * list event :=
  match validate_audio_format audio_data with
  | Some e => (Raises e, self, [])
  | None =>
      let '(refreshed, self1, t1) :=
        if PrimFloat.leb (expires_at self) (time_at_check w)
           || no_token self
        then refresh w self else (true, self, []) in
      if negb refreshed then (Raises TokenRefreshFailed, self1, t1)
      else
        (Returns (recognized_text w), self1,
         t1 ++ [post_recognition (token self1) audio_data])
  end.

(** [connect]: the handler answers [True] whatever [refresh] returns. *)
Definition connect (w : world) (sid : Py.str) (self : AzureToken)
  : bool * AzureToken * list event :=
  let '(_, self1, t1) := refresh w self in
  (true, self1, emit_connection_success sid :: t1).

(** [process_audio], the handler of ["audio_chunk"]. *)
Definition process_audio (translator_key : bool) (w : world)
    (sid : Py.str) (audio_data : payload) (self : AzureToken)
  : AzureToken * list event :=
  match audio_data with
  | NotBytes => (self, [emit_processing_error sid AudioMustBeBytes])
  | Bytes audio_data =>
      match speech_to_text w audio_data self with
      | (Raises e, self1, t1) => (self1, t1 ++ [emit_processing_error sid e])
      | (Returns english_text, self1, t1) =>
          if Py.is_empty english_text then (self1, t1)
          else
            let '(hindi_translation, t2) :=
              translate_text translator_key w english_text (Py.lit "hi") in
            (self1,
             t1 ++ t2
             ++ [emit_translation_result sid english_text hindi_translation
                   (Py.lit "en")])
      end
  end.

End Server.

(* ===================================================================== *)
(** * Vocabulary of the properties *)
(* ===================================================================== *)

Module TR := Translation.
Module LD := LanguageDetection.
Module SR := SubtitleRenderer.
Module AC := AudioCapture.
Module STT := SpeechToText.
Module RT := RealTimeSubtitleSystem.
Module APP := SubtitleApp.
Module SV := Server.

(** ** Language detection *)

(** The language service answered with status 200 and a first document
    whose detected language is [d]. *)
Definition answers (net : post_outcome LD.response)
    (d : LD.detected_language) : Prop :=
  exists r ds,
    net = PostReturns 200 r
    /\ LD.documents r = Some ({| LD.detectedLanguage := Some d |} :: ds).

(** The situations in which the stored hypothesis is to stay: a text
    shorter than ten characters, a successful detection less than
    [cache_expiry] seconds ago, a call that raises or answers with another
    status than 200, an answer whose confidence is not above the
    threshold. *)
Inductive retains (now : LD.clock) (net : post_outcome LD.response)
    (text : Py.str) (self : LD.t) : Prop :=
| retains_short :
    Py.len text < 10 -> retains now net text self
| retains_cooldown h :
    LD.cached_language self = Some h ->
    PrimFloat.ltb
      (PrimFloat.sub (LD.time_at_entry now) (LD.last_detection_time self))
      (LD.cache_expiry self) = true ->
    retains now net text self
| retains_call_raises :
    net = PostRaises -> retains now net text self
| retains_call_status status_code r :
    net = PostReturns status_code r -> status_code <> 200 ->
    retains now net text self
| retains_low_confidence d conf :
    answers net d ->
    LD.confidenceScore d = Some conf ->
    PrimFloat.ltb (LD.confidence_threshold self) conf = false ->
    retains now net text self.

(** The guard in front of the [try] block of [detect_language]. *)
Definition skips (now : LD.clock) (text : Py.str) (self : LD.t) : bool :=
  Py.is_empty text || LD.too_short text
  || LD.cache_is_recent (LD.time_at_entry now) self.

(** ** The renderer *)

(** The caption list once a line is appended, before any eviction. *)
Definition inserted (text : Py.str) (speaker : option Py.str)
    (self : SR.t) : list SR.subtitle :=
  SR.subtitles self
  ++ [{| SR.text := text; SR.speaker := speaker;
         SR.timestamp := SR.now (SR.root self) |}].

(** [show_subtitle] called once per text, in order. *)
Fixpoint show_all (parent_window : option bool) (texts : list Py.str)
    (self : SR.t) : SR.t :=
  match texts with
  | [] => self
  | x :: texts' =>
      show_all parent_window texts'
        (final (SR.show_subtitle parent_window x None self))
  end.

(** The timer queue once the timer held in [fade_timer] is cancelled. *)
Definition cancelled (self : SR.t) : list (N * Z) :=
  match SR.fade_timer self with
  | Some id =>
      List.filter (fun tm => negb (N.eqb (fst tm) id))
                  (SR.timers (SR.root self))
  | None => SR.timers (SR.root self)
  end.

(** No line is stamped in the future; at most one timer is queued, it is
    the one held in [fade_timer], and it is due no earlier than the fade
    delay after the insertion of every line shown. *)
Definition fade_invariant (self : SR.t) : Prop :=
  Forall (fun s => SR.timestamp s <= SR.now (SR.root self))
         (SR.subtitles self)
  /\ (SR.timers (SR.root self) = []
      \/ exists id due ms,
           SR.timers (SR.root self) = [(id, due)]
           /\ SR.fade_timer self = Some id
           /\ SR.fade_ms self = Py.Ok ms
           /\ Forall (fun s => SR.timestamp s + ms <= due)
                     (SR.subtitles self)).

(** A root window at time 0, and on it the renderer the orchestrator
    builds: two lines, five seconds. *)
Definition root0 : SR.Tk :=
  {| SR.now := 0; SR.timers := []; SR.next_timer := 0%N;
     SR.withdrawn := false |}.

Definition renderer0 : SR.t := final (SR.initialize (SR.init 5 2 root0)).

Definition texts (self : SR.t) : list Py.str :=
  List.map SR.text (SR.subtitles self).

(** "A" shown at 0 s, "B" at 1 s, "C" at 2 s, on [renderer0]: the texts
    in the caption list when the clock reaches [t] milliseconds
    ([2000 <= t]). *)
Definition fade_scenario (parent_window : option bool) (t : Z)
  : list Py.str :=
  let r := final (SR.show_subtitle parent_window (Py.lit "A") None renderer0) in
  let r := SR.mainloop_until parent_window 1000 r in
  let r := final (SR.show_subtitle parent_window (Py.lit "B") None r) in
  let r := SR.mainloop_until parent_window 2000 r in
  let r := final (SR.show_subtitle parent_window (Py.lit "C") None r) in
  texts (SR.mainloop_until parent_window t r).

(** ** The orchestrator *)

(** The orchestrator after [initialize], speaking [default_language] and
    translating into English, with its renderer in place. *)
Definition system0 (default_language : Py.str) : RT.t := {|
  RT.audio_capture := AC.init;
  RT.language_detection := LD.init;
  RT.speech_to_text :=
    final (STT.set_transcription_callback (STT.init default_language));
  RT.translation := {| TR.target_language := Py.lit "en" |};
  RT.subtitle_renderer := Some renderer0;
  RT.current_language := default_language;
  RT.is_running := false
|}.

(** ... and after a successful [start]. *)
Definition running0 (default_language : Py.str) : RT.t :=
  final (RT.start true STT.SdkStarts (system0 default_language)).

(** A world in which the translator answers "Hello" and the language
    service is down. *)
Definition world0 : RT.world := {|
  RT.detection_clock :=
    {| LD.time_at_entry := 100; LD.time_at_update := 101 |};
  RT.detection_net := PostRaises;
  RT.translation_net :=
    PostReturns 200
      [{| TR.translations :=
            Some [{| TR.item_text := Some (Py.lit "Hello") |}] |}]
|}.

(** The interim transcript "Hola". *)
Definition interim_hola : STT.transcription_result :=
  {| STT.text := Py.lit "Hola"; STT.is_final := false;
     STT.language_code := Py.lit "es" |}.

(** ** Further vocabulary *)

(** The translator answered with status 200 and a first document whose
    first translation carries the text [s]. *)
Definition translates (net : post_outcome (list TR.document)) (s : Py.str)
  : Prop :=
  exists docs items,
    net = PostReturns 200
            ({| TR.translations :=
                  Some ({| TR.item_text := Some s |} :: items) |} :: docs).

(** The labels once every subtitle of [subs] is shown on its own label
    and the labels left over are blank. *)
Definition shown (labels : nat) (subs : list SR.subtitle) : list Py.str :=
  List.map SR.display_text (take labels subs)
  ++ repeat [] (labels - length subs).

(** The code the recognizer is given for a language code: the region code
    of the six languages of the table, the code itself otherwise. *)
Definition region_code (language_code : Py.str) : Py.str :=
  default language_code
    (STT.language_map (STT.init []) !! language_code).

(** The calls to PyAudio and to the speech SDK in a trace, in order. *)
Definition device_events (t : list event) : list event :=
  List.filter
    (fun e =>
       match e with
       | Call _ | post_languages _ | post_translate _ _ _ => false
       | _ => true
       end) t.

(** The requests to the translator in a trace, in order. *)
Definition translate_requests (t : list event) : list event :=
  List.filter
    (fun e => match e with post_translate _ _ _ => true | _ => false end) t.

(** The two halves of [_handle_transcription] past its guard: the
    detection of the language, and the translation and display. *)
Definition detection_step (w : RT.world) (ev : STT.transcription_result)
  : M RT.t unit :=
  let text := STT.text ev in
  if STT.is_final ev && (15 <? Py.len text) then
    bind (RT.on_language_detection
            (LD.detect_language (RT.detection_clock w) (RT.detection_net w)
               text))
      (fun detected_language =>
         bind get (fun self =>
           if negb (Py.eqb (LD.language_code detected_language)
                           (RT.current_language self)) then
             bind (modify (RT.set_current_language
                             (LD.language_code detected_language)))
               (fun _ =>
                  bind get (fun self =>
                    RT.on_speech_to_text
                      (STT.set_language (RT.current_language self))))
           else ret tt))
  else ret tt.

Definition display_step (parent_window : option bool)
    (net : post_outcome (list TR.document)) (text : Py.str) : M RT.t unit :=
  bind get (fun self =>
    bind (RT.on_translation
            (TR.translate_text net text (RT.current_language self)))
      (fun translation_result =>
         RT.if_subtitle_renderer
           (SR.show_subtitle parent_window
              (TR.translated_text translation_result) None))).

(** The buttons agree with the running flag: [Start] is enabled exactly
    when the pipeline is not running, [Stop] exactly when it is. *)
Definition buttons_agree (self : APP.t) : Prop :=
  APP.start_button self = negb (RT.is_running (APP.subtitle_system self))
  /\ APP.stop_button self = RT.is_running (APP.subtitle_system self).

(** ** The server *)

(** The events sent to clients in a trace of the server, and its
    requests, in order. *)
Definition emits (t : list SV.event) : list SV.event :=
  List.filter SV.is_emit t.
Definition posts (t : list SV.event) : list SV.event :=
  List.filter (fun e => negb (SV.is_emit e)) t.

(** An audio chunk the server accepts: [bytes], 16000 of them at
    least. *)
Definition long_enough (audio_data : SV.payload) : Prop :=
  match audio_data with
  | SV.Bytes audio_data => 16000 <= Z.of_nat (length audio_data)
  | SV.NotBytes => False
  end.

(* ===================================================================== *)
(** * Properties *)
(* ===================================================================== *)

(** Running the monad's combinators. *)
Ltac run :=
  cbv [bind ret get put modify emit raise try_except of_result lift
       outcome final trace];
  cbn [fst snd app].

(** ** Traces *)

Lemma calls_app t1 t2 : calls (t1 ++ t2) = calls t1 ++ calls t2.
Proof.
  induction t1 as [|e t1 IH]; [reflexivity|].
  destruct e; cbn; rewrite IH; reflexivity.
Qed.

(** ** Strings *)

Lemma lstrip_length (s : Py.str) : (length (Py.lstrip s) <= length s)%nat.
Proof.
  induction s as [|c s IH]; cbn; [lia|].
  destruct (Py.isspace c); cbn; lia.
Qed.

Lemma strip_length (s : Py.str) : Py.len (Py.strip s) <= Py.len s.
Proof.
  unfold Py.len, Py.strip, Py.rstrip.
  rewrite length_rev.
  pose proof (lstrip_length (rev (Py.lstrip s))) as H1.
  rewrite length_rev in H1.
  pose proof (lstrip_length s). lia.
Qed.

(** [not text or not text.strip()] is [not text.strip()]. *)
Lemma blank_test (text : Py.str) :
  Py.is_empty text || Py.is_empty (Py.strip text)
  = Py.is_empty (Py.strip text).
Proof. destruct text; reflexivity. Qed.

(** ** Translation *)

(** A call that returns before the [try] block. *)
Lemma translate_text_blank net (text source_language : Py.str) self :
  Py.is_empty (Py.strip text) = true ->
  TR.translate_text net text source_language self
  = (Py.Ok {| TR.translated_text := []; TR.original_text := text |},
     self, [Call (Method.translate_text text source_language)]).
Proof.
  intros Hb. unfold TR.translate_text. run.
  rewrite blank_test, Hb. reflexivity.
Qed.

Lemma translate_text_same net (text source_language : Py.str) self :
  Py.is_empty (Py.strip text) = false ->
  source_language = TR.target_language self ->
  TR.translate_text net text source_language self
  = (Py.Ok {| TR.translated_text := text; TR.original_text := text |},
     self, [Call (Method.translate_text text source_language)]).
Proof.
  intros Hb ->. unfold TR.translate_text. run.
  rewrite blank_test, Hb. unfold Py.eqb.
  rewrite bool_decide_eq_true_2 by reflexivity. reflexivity.
Qed.

(** [translate_text] always returns, and leaves the translator as it is. *)
Lemma translate_text_returns net text source_language self :
  exists r t,
    TR.translate_text net text source_language self = (Py.Ok r, self, t)
    /\ calls t = [Method.translate_text text source_language].
Proof.
  unfold TR.translate_text, TR.first_translation. run.
  destruct (_ || _); [eexists _, _; split; reflexivity|].
  destruct (Py.eqb _ _); [eexists _, _; split; reflexivity|].
  destruct net as [|st body]; [eexists _, _; split; reflexivity|].
  destruct (TR.guard_ok st body); [|eexists _, _; split; reflexivity].
  destruct body as [|[[[|[[s|]] trs]|]] body];
    eexists _, _; split; reflexivity.
Qed.

(** C7, as stated, fails: a text of one space, in the target language,
    comes back as the empty string. *)
Lemma translate_same_language_space :
  let self := {| TR.target_language := Py.lit "en" |} in
  exists r,
    outcome (TR.translate_text PostRaises (Py.lit " ") (Py.lit "en") self)
    = Py.Ok r
    /\ TR.translated_text r <> Py.lit " ".
Proof.
  eexists. split; [vm_compute; reflexivity|]. cbn. discriminate.
Qed.

(** C7, amended: when the source language is the configured target
    language, [translate_text] posts nothing and leaves the translator
    unchanged; the translated text is the input text, unless the input is
    empty or all whitespace, in which case it is the empty string. *)
Theorem translate_same_language net (text source_language : Py.str) self :
  source_language = TR.target_language self ->
  TR.translate_text net text source_language self
  = (Py.Ok {| TR.translated_text :=
                if Py.is_empty (Py.strip text) then [] else text;
              TR.original_text := text |},
     self, [Call (Method.translate_text text source_language)]).
Proof.
  intros Hs. destruct (Py.is_empty (Py.strip text)) eqn:Hb.
  - apply translate_text_blank, Hb.
  - apply translate_text_same; assumption.
Qed.

Lemma translate_same_language_witness :
  TR.translate_text PostRaises (Py.lit "Hola") (Py.lit "es")
    {| TR.target_language := Py.lit "es" |}
  = (Py.Ok {| TR.translated_text := Py.lit "Hola";
              TR.original_text := Py.lit "Hola" |},
     {| TR.target_language := Py.lit "es" |},
     [Call (Method.translate_text (Py.lit "Hola") (Py.lit "es"))]).
Proof.
  exact (translate_same_language PostRaises (Py.lit "Hola") (Py.lit "es")
           {| TR.target_language := Py.lit "es" |} eq_refl).
Defined.

(** C8, as stated, fails: a text of two spaces is not what comes back as
    the translated text. *)
Lemma translate_blank_two_spaces :
  let self := {| TR.target_language := Py.lit "en" |} in
  exists r,
    outcome (TR.translate_text PostRaises (Py.lit "  ") (Py.lit "es") self)
    = Py.Ok r
    /\ TR.translated_text r <> Py.lit "  ".
Proof.
  eexists. split; [vm_compute; reflexivity|]. cbn. discriminate.
Qed.

(** C8, amended: for a text that is empty or all whitespace,
    [translate_text] returns the empty string as the translated text and
    the text itself as the original text, posts nothing and leaves the
    translator unchanged. *)
Theorem translate_blank net (text source_language : Py.str) self :
  Py.is_empty text = true \/ Py.is_empty (Py.strip text) = true ->
  TR.translate_text net text source_language self
  = (Py.Ok {| TR.translated_text := []; TR.original_text := text |},
     self, [Call (Method.translate_text text source_language)]).
Proof.
  intros H. apply translate_text_blank.
  destruct H as [H|H]; [|exact H].
  destruct text; [reflexivity|discriminate].
Qed.

Lemma translate_blank_witness :
  TR.translate_text PostRaises (Py.lit "  ") (Py.lit "es")
    {| TR.target_language := Py.lit "en" |}
  = (Py.Ok {| TR.translated_text := [];
              TR.original_text := Py.lit "  " |},
     {| TR.target_language := Py.lit "en" |},
     [Call (Method.translate_text (Py.lit "  ") (Py.lit "es"))]).
Proof.
  exact (translate_blank PostRaises (Py.lit "  ") (Py.lit "es")
           {| TR.target_language := Py.lit "en" |} (or_intror eq_refl)).
Defined.

(** ** Language detection *)

Lemma short_is_too_short (text : Py.str) :
  Py.len text < 10 -> LD.too_short text = true.
Proof.
  intros H. unfold LD.too_short. apply Z.ltb_lt.
  pose proof (strip_length text). lia.
Qed.

Lemma detect_language_retains now net text self :
  retains now net text self ->
  let run := LD.detect_language now net text self in
  final run = self /\ outcome run = Py.Ok (LD.cached_or_default self).
Proof.
  intros H. cbv zeta. unfold LD.detect_language, LD.subscript. run.
  fold (skips now text self).
  destruct (skips now text self) eqn:Hg; [split; reflexivity|].
  unfold skips in Hg.
  apply orb_false_elim in Hg as [Hg Hc].
  apply orb_false_elim in Hg as [He Hs].
  destruct H as [Hlen|h Hh Hlt| -> |st r -> Hst|d conf Ha Hconf Hlt].
  - rewrite short_is_too_short in Hs by exact Hlen. discriminate.
  - unfold LD.cache_is_recent in Hc. rewrite Hlt, Hh in Hc. discriminate.
  - split; reflexivity.
  - unfold LD.first_detected. apply Z.eqb_neq in Hst. rewrite Hst.
    split; reflexivity.
  - destruct Ha as (r & ds & -> & Hd).
    unfold LD.first_detected. rewrite Z.eqb_refl, Hd. cbn.
    rewrite Hconf, Hlt. split; reflexivity.
Qed.

(** Every run either stores nothing and returns what was stored (or the
    default), or stores and returns an answer of the service whose
    confidence is above the threshold. *)
Lemma detect_language_cases now net text self :
  let run := LD.detect_language now net text self in
  (final run = self /\ outcome run = Py.Ok (LD.cached_or_default self))
  \/ (exists iso conf,
        let h := {| LD.language_code := iso; LD.confidence := conf |} in
        answers net {| LD.iso6391Name := Some iso;
                       LD.confidenceScore := Some conf |}
        /\ PrimFloat.ltb (LD.confidence_threshold self) conf = true
        /\ final run
           = LD.set_last_detection_time (LD.time_at_update now)
               (LD.set_cached h self)
        /\ outcome run = Py.Ok h).
Proof.
  cbv zeta. unfold LD.detect_language, LD.subscript. run.
  fold (skips now text self).
  destruct (skips now text self); [left; split; reflexivity|].
  destruct net as [|st r]; [left; split; reflexivity|].
  unfold LD.first_detected.
  destruct (st =? 200) eqn:Hst; [|left; split; reflexivity].
  apply Z.eqb_eq in Hst. subst st.
  destruct (LD.documents r) as [[|[[[iso conf]|]] ds]|] eqn:Hd;
    try (left; split; reflexivity).
  cbn [LD.detectedLanguage LD.confidenceScore LD.iso6391Name].
  destruct conf as [conf|]; [|left; split; reflexivity].
  destruct (PrimFloat.ltb (LD.confidence_threshold self) conf) eqn:Hlt;
    [|left; split; reflexivity].
  destruct iso as [iso|]; [|left; split; reflexivity].
  right. exists iso, conf. repeat split; try assumption; try reflexivity.
  exists r, ds. split; [reflexivity|exact Hd].
Qed.

(** C9: the stored hypothesis stays as it is, and is what the call
    returns, when the text is shorter than ten characters, when the last
    successful detection is less than [cache_expiry] seconds old (60 by
    default), when the call to the service fails, and when the answer's
    confidence is not above the threshold (0.7 by default); a short text
    posts nothing; the stored hypothesis changes only to an answer of the
    service whose confidence is above the threshold; and once a
    hypothesis is stored, one stays stored and is what the call
    returns. *)
Theorem detect_language_hypothesis now net text self :
  let run := LD.detect_language now net text self in
  (retains now net text self ->
   final run = self /\ outcome run = Py.Ok (LD.cached_or_default self))
  /\ (Py.len text < 10 -> trace run = [Call (Method.detect_language text)])
  /\ (final run <> self ->
      exists iso conf,
        answers net {| LD.iso6391Name := Some iso;
                       LD.confidenceScore := Some conf |}
        /\ PrimFloat.ltb (LD.confidence_threshold self) conf = true
        /\ LD.cached_language (final run)
           = Some {| LD.language_code := iso; LD.confidence := conf |})
  /\ (forall h, LD.cached_language self = Some h ->
      exists h', LD.cached_language (final run) = Some h'
                 /\ outcome run = Py.Ok h')
  /\ LD.cache_expiry LD.init = 60%float
  /\ LD.confidence_threshold LD.init = 0.7%float.
Proof.
  cbv zeta. split; [apply detect_language_retains|].
  split; [|split; [|split; [|split; reflexivity]]].
  - intros Hlen. unfold LD.detect_language. run.
    rewrite short_is_too_short by exact Hlen.
    rewrite orb_true_r. reflexivity.
  - intros Hne.
    destruct (detect_language_cases now net text self)
      as [[H _]|(iso & conf & Ha & Hlt & Hf & _)]; [contradiction|].
    exists iso, conf. rewrite Hf. repeat split; assumption.
  - intros h Hh.
    destruct (detect_language_cases now net text self)
      as [[Hf Ho]|(iso & conf & _ & _ & Hf & Ho)].
    + exists h. rewrite Hf, Ho. unfold LD.cached_or_default. rewrite Hh.
      split; reflexivity.
    + eexists. rewrite Hf, Ho. split; reflexivity.
Qed.

Lemma detect_language_hypothesis_witness :
  let now := {| LD.time_at_entry := 100; LD.time_at_update := 101 |} in
  let run := LD.detect_language now PostRaises (Py.lit "Hola") LD.init in
  Py.len (Py.lit "Hola") < 10
  /\ (final run = LD.init /\ outcome run = Py.Ok LD.default_hypothesis)
  /\ trace run = [Call (Method.detect_language (Py.lit "Hola"))].
Proof.
  cbv zeta. split; [reflexivity|]. split.
  - exact (proj1 (detect_language_hypothesis _ PostRaises (Py.lit "Hola")
                    LD.init)
                 (retains_short _ PostRaises (Py.lit "Hola") LD.init
                    eq_refl)).
  - exact (proj1 (proj2 (detect_language_hypothesis _ PostRaises
                           (Py.lit "Hola") LD.init))
                 eq_refl).
Defined.

(** C10: [detect_language] returns a hypothesis for every text, whatever
    the service does, and never raises; with nothing stored, every run
    that stores nothing (a skip, a failed call, a low confidence) returns
    the built-in default, English with confidence 1.0. *)
Theorem detect_language_total now net text self :
  let run := LD.detect_language now net text self in
  (exists h, outcome run = Py.Ok h)
  /\ (LD.cached_language self = None ->
      retains now net text self \/ final run = self ->
      outcome run = Py.Ok LD.default_hypothesis)
  /\ LD.default_hypothesis
     = {| LD.language_code := Py.lit "en"; LD.confidence := 1 |}.
Proof.
  cbv zeta. split; [|split; [|reflexivity]].
  - destruct (detect_language_cases now net text self)
      as [[_ Ho]|(iso & conf & _ & _ & _ & Ho)]; eexists; exact Ho.
  - intros Hn H.
    assert (LD.cached_or_default self = LD.default_hypothesis) as Hd
      by (unfold LD.cached_or_default; rewrite Hn; reflexivity).
    destruct H as [H|H].
    + apply detect_language_retains in H as [_ ->]. rewrite Hd. reflexivity.
    + destruct (detect_language_cases now net text self)
        as [[_ Ho]|(iso & conf & _ & _ & Hf & _)].
      * rewrite Ho, Hd. reflexivity.
      * exfalso. rewrite H in Hf. rewrite Hf in Hn. discriminate.
Qed.

Lemma detect_language_total_witness :
  let now := {| LD.time_at_entry := 100; LD.time_at_update := 101 |} in
  LD.cached_language LD.init = None
  /\ outcome (LD.detect_language now PostRaises
                (Py.lit "Where is the station?") LD.init)
     = Py.Ok LD.default_hypothesis.
Proof.
  cbv zeta. split; [reflexivity|].
  exact (proj1 (proj2 (detect_language_total _ PostRaises
                         (Py.lit "Where is the station?") LD.init))
               eq_refl
               (or_introl (retains_call_raises _ PostRaises
                             (Py.lit "Where is the station?") LD.init
                             eq_refl))).
Defined.

(** ** The renderer: capacity *)

Ltac renderer_unfold :=
  unfold SR.show_subtitle, SR.fade_oldest_subtitle, SR.clear,
    SR.cancel_fade_timer, SR.schedule_fade, SR.update_subtitle_display,
    SR.load_parent_window, SR.after, SR.after_cancel, SR.deiconify,
    SR.withdraw.

(** Every way through [show_subtitle]: a timer to cancel or none, an
    eviction or none, [parent_window] unbound, true or false, the window
    withdrawn or not, a delay or an exception from [int]. *)
Ltac show_subtitle_paths self pw :=
  destruct (SR.fade_timer self) eqn:?; cbn;
  destruct (SR.max_lines self <? _); cbn;
  (destruct pw as [[]|]; cbn;
   [ destruct (Py.int_of_float _) eqn:?
   | destruct (SR.withdrawn (SR.root self)); cbn;
     destruct (Py.int_of_float _) eqn:?
   | ]);
  cbn.

(** The caption list after [show_subtitle], whether it returns or
    raises. *)
Lemma show_subtitle_subtitles pw text speaker self :
  SR.subtitles (final (SR.show_subtitle pw text speaker self))
  = if SR.max_lines self <? Py.len (inserted text speaker self)
    then Py.slice_from (- SR.max_lines self) (inserted text speaker self)
    else inserted text speaker self.
Proof.
  unfold inserted. renderer_unfold. run. unfold SR.fade_ms.
  show_subtitle_paths self pw; reflexivity.
Qed.

Lemma show_subtitle_max_lines pw text speaker self :
  SR.max_lines (final (SR.show_subtitle pw text speaker self))
  = SR.max_lines self.
Proof.
  renderer_unfold. run. unfold SR.fade_ms.
  show_subtitle_paths self pw; reflexivity.
Qed.

Lemma show_subtitle_calls pw text speaker self :
  calls (trace (SR.show_subtitle pw text speaker self))
  = [Method.show_subtitle text speaker].
Proof.
  renderer_unfold. run. unfold SR.fade_ms.
  show_subtitle_paths self pw; reflexivity.
Qed.

Lemma slice_from_neg {A} (n : Z) (l : list A) :
  1 <= n -> n < Py.len l ->
  Py.slice_from (- n) l = drop (length l - Z.to_nat n) l.
Proof.
  intros H1 H2. unfold Py.slice_from, Py.len in *.
  destruct (- n <? 0) eqn:E; [|apply Z.ltb_ge in E; lia].
  f_equal. lia.
Qed.

Lemma slice_from_drop {A} (i : Z) (l : list A) :
  exists k, Py.slice_from i l = drop k l.
Proof. unfold Py.slice_from. destruct (i <? 0); eexists; reflexivity. Qed.

Lemma inserted_len text speaker self :
  Py.len (inserted text speaker self) = Py.len (SR.subtitles self) + 1.
Proof. unfold inserted, Py.len. rewrite length_app. cbn. lia. Qed.

(** With [max_lines] at least 1, whatever the renderer held before, the
    caption list holds at most [max_lines] lines after [show_subtitle]. *)
Lemma show_subtitle_bounded pw text speaker self :
  1 <= SR.max_lines self ->
  Py.len (SR.subtitles (final (SR.show_subtitle pw text speaker self)))
  = Z.min (Py.len (SR.subtitles self) + 1) (SR.max_lines self).
Proof.
  intros H. rewrite show_subtitle_subtitles.
  pose proof (inserted_len text speaker self) as Hl.
  destruct (SR.max_lines self <? _) eqn:E.
  - apply Z.ltb_lt in E. rewrite slice_from_neg by lia.
    unfold Py.len in *. rewrite length_drop. lia.
  - apply Z.ltb_ge in E. lia.
Qed.

(** ... and the lines kept are the newest ones, oldest first. *)
Lemma show_subtitle_fifo pw text speaker self :
  1 <= SR.max_lines self ->
  SR.subtitles (final (SR.show_subtitle pw text speaker self))
  = drop (length (inserted text speaker self) - Z.to_nat (SR.max_lines self))
         (inserted text speaker self).
Proof.
  intros H. rewrite show_subtitle_subtitles.
  destruct (SR.max_lines self <? _) eqn:E.
  - apply Z.ltb_lt in E. apply slice_from_neg; lia.
  - apply Z.ltb_ge in E. unfold Py.len in E.
    replace (_ - _)%nat with 0%nat by lia. reflexivity.
Qed.

Lemma show_all_max_lines pw texts : forall self,
  SR.max_lines (show_all pw texts self) = SR.max_lines self.
Proof.
  induction texts as [|x xs IH]; intros self; cbn; [reflexivity|].
  rewrite IH. apply show_subtitle_max_lines.
Qed.

(** After any number of insertions, at least one, the texts shown are the
    last [max_lines] of those held before followed by those inserted. *)
Lemma show_all_texts pw texts : forall self,
  1 <= SR.max_lines self -> texts <> [] ->
  List.map SR.text (SR.subtitles (show_all pw texts self))
  = let all := List.map SR.text (SR.subtitles self) ++ texts in
    drop (length all - Z.to_nat (SR.max_lines self)) all.
Proof.
  induction texts as [|x xs IH]; intros self H Hne; [congruence|].
  cbn [show_all]. cbv zeta.
  assert (Hx : List.map SR.text
                 (SR.subtitles (final (SR.show_subtitle pw x None self)))
               = drop (length (SR.subtitles self) + 1
                       - Z.to_nat (SR.max_lines self))
                      (List.map SR.text (SR.subtitles self) ++ [x])).
  { rewrite show_subtitle_fifo by assumption. unfold inserted.
    rewrite <- skipn_map, map_app, length_app. reflexivity. }
  destruct xs as [|y ys].
  - cbn [show_all]. rewrite Hx, length_app, length_map. reflexivity.
  - rewrite IH by (rewrite ?show_subtitle_max_lines; congruence).
    cbv zeta. rewrite show_subtitle_max_lines, Hx.
    set (old := List.map SR.text (SR.subtitles self)).
    set (n := Z.to_nat (SR.max_lines self)).
    assert (Hold : length old = length (SR.subtitles self))
      by (subst old; apply length_map).
    rewrite <- Hold.
    rewrite <- drop_app_le by (rewrite length_app; cbn [length]; lia).
    rewrite <- app_assoc. cbn [app].
    rewrite drop_drop, length_drop. f_equal.
    rewrite !length_app. cbn [length]. lia.
Qed.

(** [N + 1] insertions into an empty renderer with [max_lines = N], for
    [N] at least 1, leave the last [N] texts: the first is gone. *)
Lemma show_all_one_more pw x texts self :
  1 <= SR.max_lines self ->
  SR.subtitles self = [] ->
  Py.len texts = SR.max_lines self ->
  List.map SR.text (SR.subtitles (show_all pw (x :: texts) self)) = texts.
Proof.
  intros H Hs Hl. rewrite show_all_texts by (assumption || discriminate).
  rewrite Hs. cbn [List.map app length]. unfold Py.len in Hl.
  replace (_ - _)%nat with 1%nat by lia. reflexivity.
Qed.

(** With [max_lines = 0] the slice is [self.subtitles[-0:]], the whole
    list: nothing is evicted. *)
Lemma show_subtitle_keeps_all_at_zero pw text speaker self :
  SR.max_lines self = 0 ->
  SR.subtitles (final (SR.show_subtitle pw text speaker self))
  = inserted text speaker self.
Proof.
  intros H. rewrite show_subtitle_subtitles, H.
  destruct (0 <? _); reflexivity.
Qed.

(** C5 fails on the code at [max_lines = 0]: one [show_subtitle] on an
    empty renderer built with [max_lines = 0] leaves one line in the
    caption list, whatever [parent_window] is bound to. *)
Theorem show_subtitle_max_lines_zero pw :
  let self := final (SR.initialize (SR.init 5 0 root0)) in
  SR.max_lines self = 0
  /\ SR.subtitles self = []
  /\ texts (final (SR.show_subtitle pw (Py.lit "A") None self))
     = [Py.lit "A"].
Proof. destruct pw as [[]|]; vm_compute; repeat split; reflexivity. Qed.

(** ** The renderer: what the methods do to the timer queue *)

Lemma show_subtitle_shape pw text speaker self :
  let self' := final (SR.show_subtitle pw text speaker self) in
  SR.fade_timeout self' = SR.fade_timeout self
  /\ SR.now (SR.root self') = SR.now (SR.root self)
  /\ ((SR.timers (SR.root self') = cancelled self
       /\ SR.fade_timer self' = None)
      \/ exists ms,
           SR.fade_ms self = Py.Ok ms
           /\ SR.timers (SR.root self')
              = cancelled self
                ++ [(SR.next_timer (SR.root self),
                     SR.now (SR.root self) + Z.max 0 ms)]
           /\ SR.fade_timer self' = Some (SR.next_timer (SR.root self))).
Proof.
  unfold cancelled. renderer_unfold. run. unfold SR.fade_ms.
  show_subtitle_paths self pw;
    match goal with H : SR.fade_timer self = _ |- _ => rewrite ?H end;
    (split; [reflexivity|split; [reflexivity|]]);
    first [ left; split; reflexivity
          | right; eexists; repeat split; reflexivity ].
Qed.

Lemma fade_oldest_subtitle_empty pw self :
  SR.subtitles self = [] ->
  final (SR.fade_oldest_subtitle pw self) = self.
Proof. intros H. renderer_unfold. run. rewrite H. reflexivity. Qed.

Lemma fade_oldest_subtitle_shape pw self s rest :
  SR.subtitles self = s :: rest ->
  let self' := final (SR.fade_oldest_subtitle pw self) in
  SR.subtitles self' = rest
  /\ SR.fade_timeout self' = SR.fade_timeout self
  /\ SR.now (SR.root self') = SR.now (SR.root self)
  /\ ((SR.timers (SR.root self') = SR.timers (SR.root self))
      \/ exists ms,
           rest <> []
           /\ SR.fade_ms self = Py.Ok ms
           /\ SR.timers (SR.root self')
              = SR.timers (SR.root self)
                ++ [(SR.next_timer (SR.root self),
                     SR.now (SR.root self) + Z.max 0 ms)]
           /\ SR.fade_timer self' = Some (SR.next_timer (SR.root self))).
Proof.
  intros H. renderer_unfold. run. rewrite H. unfold SR.fade_ms.
  destruct rest as [|s' rest]; cbn.
  - destruct pw as [[]|]; cbn; repeat split; left; reflexivity.
  - destruct (Py.int_of_float _) eqn:E; cbn;
      (split; [reflexivity|split; [reflexivity|split; [reflexivity|]]]);
      first [ left; reflexivity
            | right; eexists; split;
              [discriminate|repeat split; reflexivity] ].
Qed.

Lemma clear_shape pw self :
  let self' := final (SR.clear pw self) in
  SR.subtitles self' = []
  /\ SR.now (SR.root self') = SR.now (SR.root self)
  /\ SR.timers (SR.root self') = cancelled self.
Proof.
  unfold cancelled. renderer_unfold. run. cbn.
  destruct (SR.fade_timer self) eqn:Hft; cbn;
    destruct pw as [[]|]; cbn; repeat split; reflexivity.
Qed.

Lemma clear_calls pw self :
  calls (trace (SR.clear pw self)) = [Method.clear].
Proof.
  renderer_unfold. run. cbn.
  destruct (SR.fade_timer self); cbn; destruct pw as [[]|]; reflexivity.
Qed.

Lemma fire_subtitles pw id self :
  SR.subtitles (SR.fire pw id self) = tail (SR.subtitles self).
Proof.
  unfold SR.fire.
  set (self0 := SR.set_root _ self).
  destruct (SR.subtitles self) as [|s rest] eqn:Hs.
  - rewrite fade_oldest_subtitle_empty by exact Hs. exact Hs.
  - destruct (fade_oldest_subtitle_shape pw self0 s rest Hs) as [Hr _].
    exact Hr.
Qed.

(** ** The renderer: one timer for all lines *)

Lemma cancelled_invariant self :
  fade_invariant self -> cancelled self = [].
Proof.
  intros [_ [H|(id & due & ms & H & Hf & _)]]; unfold cancelled.
  - rewrite H. destruct (SR.fade_timer self); reflexivity.
  - rewrite H, Hf. cbn. rewrite N.eqb_refl. reflexivity.
Qed.

Lemma fade_ms_timeout self self' :
  SR.fade_timeout self' = SR.fade_timeout self ->
  SR.fade_ms self' = SR.fade_ms self.
Proof. unfold SR.fade_ms. intros ->. reflexivity. Qed.

Lemma show_subtitle_invariant pw text speaker self :
  fade_invariant self ->
  fade_invariant (final (SR.show_subtitle pw text speaker self)).
Proof.
  intros Hi. pose proof (cancelled_invariant _ Hi) as Hc.
  destruct (show_subtitle_shape pw text speaker self) as (Hft & Hnow & Ht).
  destruct Hi as [Hts _].
  assert (Hins : Forall (fun s => SR.timestamp s <= SR.now (SR.root self))
                        (inserted text speaker self)).
  { unfold inserted. apply Forall_app. split; [exact Hts|].
    constructor; [cbn; lia|constructor]. }
  assert (Hsub : forall P : SR.subtitle -> Prop,
             Forall P (inserted text speaker self) ->
             Forall P (SR.subtitles
                         (final (SR.show_subtitle pw text speaker self)))).
  { intros P HP. rewrite show_subtitle_subtitles.
    destruct (_ <? _); [|exact HP].
    destruct (slice_from_drop (- SR.max_lines self)
                (inserted text speaker self)) as [k ->].
    apply Forall_drop, HP. }
  split.
  - rewrite Hnow. apply Hsub, Hins.
  - destruct Ht as [[Ht _]|(ms & Hms & Ht & Hf)].
    + left. rewrite Ht. exact Hc.
    + right. eexists _, _, ms. rewrite Ht, Hc. split; [reflexivity|].
      split; [exact Hf|].
      split; [rewrite (fade_ms_timeout _ _ Hft); exact Hms|].
      apply Hsub. eapply Forall_impl; [exact Hins|]. cbn. intros s Hs. lia.
Qed.

Lemma fire_invariant pw id due self :
  In (id, due) (SR.timers (SR.root self)) ->
  fade_invariant self -> fade_invariant (SR.fire pw id self).
Proof.
  intros Hin [Hts [Ht|(id' & due' & ms & Ht & Hf & Hms & Hdl)]];
    rewrite Ht in Hin; [destruct Hin|].
  destruct Hin as [[= <- <-]|[]].
  unfold SR.fire. rewrite Ht. cbn [List.filter fst negb].
  rewrite N.eqb_refl. cbn [negb].
  set (self0 := SR.set_root _ self).
  destruct (SR.subtitles self) as [|s rest] eqn:Hsubs.
  - rewrite fade_oldest_subtitle_empty by exact Hsubs.
    split; [cbn; rewrite Hsubs; constructor|left; reflexivity].
  - destruct (fade_oldest_subtitle_shape pw self0 s rest Hsubs)
      as (Hr & Hft & Hnow & Hcase).
    apply Forall_cons in Hts as [Hs0 Hrest].
    split; [rewrite Hr, Hnow; exact Hrest|].
    destruct Hcase as [Hsame|(ms' & Hne & Hms' & Htm & Hfd)].
    + left. rewrite Hsame. reflexivity.
    + right. eexists _, _, ms'. rewrite Htm.
      cbn [SR.timers SR.root self0 SR.set_root SR.set_timers app].
      split; [reflexivity|]. split; [exact Hfd|].
      split; [rewrite (fade_ms_timeout _ _ Hft); exact Hms'|].
      rewrite Hr. eapply Forall_impl; [exact Hrest|]. cbn. intros; lia.
Qed.

Lemma fade_invariant_step pw self self' :
  SR.step pw self self' -> fade_invariant self -> fade_invariant self'.
Proof.
  intros Hs Hi.
  destruct Hs as [text speaker self|self|x self|id due self Hin Hdue].
  - apply show_subtitle_invariant, Hi.
  - destruct (clear_shape pw self) as (Hsub & Hnow & Ht).
    split; [rewrite Hsub; constructor|].
    left. rewrite Ht. apply cancelled_invariant, Hi.
  - destruct Hi as [Hts Ht]. split; [|exact Ht].
    cbn. eapply Forall_impl; [exact Hts|]. cbn. intros; lia.
  - eapply fire_invariant; eassumption.
Qed.

Lemma fade_invariant_reachable pw ft ml self :
  SR.reachable pw ft ml self -> fade_invariant self.
Proof.
  induction 1 as [w Hw|self self' _ IH Hs].
  - split; [constructor|left; exact Hw].
  - eapply fade_invariant_step; eassumption.
Qed.

(** ** The renderer: the main loop runs every timer that falls due *)

Lemma earliest_none l : SR.earliest l = None -> l = [].
Proof.
  destruct l as [|tm l]; [reflexivity|]. cbn.
  destruct (SR.earliest l) as [tm'|]; [destruct (_ <? _)|]; discriminate.
Qed.

Lemma earliest_spec l id0 due0 :
  SR.earliest l = Some (id0, due0) ->
  In (id0, due0) l /\ forall id due, In (id, due) l -> due0 <= due.
Proof.
  revert id0 due0.
  induction l as [|[id1 due1] l IH]; intros id0 due0; cbn; [discriminate|].
  destruct (SR.earliest l) as [[id2 due2]|] eqn:E.
  - destruct (IH _ _ eq_refl) as [Hin Hmin]. cbn.
    destruct (due2 <? due1) eqn:Hlt; intros [= <- <-].
    + apply Z.ltb_lt in Hlt. split; [right; exact Hin|].
      intros id due [[= <- <-]|H]; [lia|eapply Hmin, H].
    + apply Z.ltb_ge in Hlt. split; [left; reflexivity|].
      intros id due [[= <- <-]|H]; [lia|]. specialize (Hmin _ _ H). lia.
  - intros [= <- <-]. split; [left; reflexivity|].
    intros id due [[= <- <-]|H]; [lia|].
    apply earliest_none in E. subst l. destruct H.
Qed.

Lemma filter_id_length (id : N) due (l : list (N * Z)) :
  In (id, due) l ->
  (length (List.filter (fun tm => negb (N.eqb (fst tm) id)) l)
   < length l)%nat.
Proof.
  induction l as [|[id1 due1] l IH]; [intros []|].
  intros [[= -> ->]|H]; cbn.
  - rewrite N.eqb_refl. cbn.
    pose proof (List.filter_length_le
                  (fun tm => negb (N.eqb (fst tm) id)) l).
    lia.
  - specialize (IH H). destruct (negb _); cbn; lia.
Qed.

Lemma fire_rounds pw id due self :
  In (id, due) (SR.timers (SR.root self)) ->
  (SR.rounds (SR.fire pw id self) < SR.rounds self)%nat.
Proof.
  intros Hin. pose proof (filter_id_length id due _ Hin) as Hlt.
  unfold SR.fire, SR.rounds.
  set (self0 := SR.set_root _ self).
  destruct (SR.subtitles self) as [|s rest] eqn:Hs.
  - rewrite fade_oldest_subtitle_empty by exact Hs. cbn. rewrite Hs. cbn.
    lia.
  - destruct (fade_oldest_subtitle_shape pw self0 s rest Hs)
      as (Hr & _ & _ & [Ht|(ms & _ & _ & Ht & _)]); rewrite Hr, Ht; cbn;
      rewrite ?length_app; cbn; lia.
Qed.

Lemma mainloop_runs_due_timers pw limit fuel : forall self,
  (SR.rounds self <= fuel)%nat ->
  forall id due,
    In (id, due) (SR.timers (SR.root (SR.mainloop pw fuel limit self))) ->
    limit < due.
Proof.
  induction fuel as [|fuel IH]; intros self Hfuel id due; cbn [SR.mainloop].
  - assert (Ht : SR.timers (SR.root self) = [])
      by (unfold SR.rounds in Hfuel; destruct (SR.timers (SR.root self));
          cbn in *; [reflexivity|lia]).
    rewrite Ht. cbn. rewrite Ht. intros [].
  - destruct (SR.earliest (SR.timers (SR.root self)))
      as [[id0 due0]|] eqn:E.
    + destruct (earliest_spec _ _ _ E) as [Hin Hmin].
      destruct (due0 <=? limit) eqn:Hd.
      * apply IH.
        pose proof (fire_rounds pw id0 due0 (SR.tick due0 self) Hin) as Hlt.
        assert (SR.rounds (SR.tick due0 self) = SR.rounds self) as Hr
          by reflexivity.
        lia.
      * apply Z.leb_gt in Hd. cbn. intros H. specialize (Hmin _ _ H). lia.
    + apply earliest_none in E. cbn. rewrite E. intros [].
Qed.

(** When [mainloop_until] is done, no timer due by [limit] is left in the
    queue. *)
Lemma mainloop_until_runs_due_timers pw limit self id due :
  In (id, due) (SR.timers (SR.root (SR.mainloop_until pw limit self))) ->
  limit < due.
Proof.
  unfold SR.mainloop_until. intros H.
  eapply (mainloop_runs_due_timers pw limit _ self); [|exact H].
  reflexivity.
Qed.

(** ** The renderer: when lines fade *)

Lemma fade_ms_renderer0 : SR.fade_ms renderer0 = Py.Ok 5000.
Proof. vm_compute. reflexivity. Qed.

(** C6, as stated, fails: five seconds after "B" was shown, at 6 s, "B"
    is still in the caption list, whether [parent_window] is unbound, as
    it is in the module, or bound. *)
Lemma fade_scenario_at_6_seconds :
  fade_scenario SR.module_parent_window 6000 = [Py.lit "B"; Py.lit "C"]
  /\ fade_scenario SR.module_parent_window 6000 <> [Py.lit "C"]
  /\ fade_scenario (Some true) 6000 = [Py.lit "B"; Py.lit "C"]
  /\ fade_scenario (Some false) 6000 = [Py.lit "B"; Py.lit "C"].
Proof. vm_compute. repeat split; try reflexivity. discriminate. Qed.

(** C6, amended: the renderer keeps one fade timer for all its lines, not
    a deadline per line.  In every state the renderer can reach, a queued
    timer is the only one, it is the one held in [fade_timer], it is due
    no earlier than the fade delay after the insertion of every line
    shown, and its expiry removes the oldest line only; the timer found
    in the queue after an insertion at time [t] is due at [t] plus the
    fade delay, whatever was queued before.  With two lines and five
    seconds, "A" shown at 0 s, "B" at 1 s and "C" at 2 s leave "B" and
    "C" at 2 s, and still "B" and "C" at 6 s. *)
Theorem fade_timer_shared parent_window :
  (forall fade_timeout max_lines self id due,
     SR.reachable parent_window fade_timeout max_lines self ->
     In (id, due) (SR.timers (SR.root self)) ->
     SR.timers (SR.root self) = [(id, due)]
     /\ SR.fade_timer self = Some id
     /\ (forall ms s,
           SR.fade_ms self = Py.Ok ms ->
           In s (SR.subtitles self) ->
           SR.timestamp s + ms <= due)
     /\ SR.subtitles (SR.fire parent_window id self)
        = tail (SR.subtitles self))
  /\ (forall fade_timeout max_lines self text speaker id due,
        SR.reachable parent_window fade_timeout max_lines self ->
        In (id, due)
           (SR.timers
              (SR.root
                 (final (SR.show_subtitle parent_window text speaker self)))) ->
        exists ms,
          SR.fade_ms self = Py.Ok ms
          /\ due = SR.now (SR.root self) + Z.max 0 ms)
  /\ SR.fade_ms renderer0 = Py.Ok 5000
  /\ fade_scenario parent_window 2000 = [Py.lit "B"; Py.lit "C"]
  /\ fade_scenario parent_window 6000 = [Py.lit "B"; Py.lit "C"].
Proof.
  split; [|split; [|split; [exact fade_ms_renderer0|]]].
  - intros ft ml self id due Hr Hin.
    apply fade_invariant_reachable in Hr
      as [_ [Ht|(id' & due' & ms & Ht & Hf & Hms & Hd)]];
      rewrite Ht in Hin; [destruct Hin|].
    destruct Hin as [[= <- <-]|[]].
    split; [exact Ht|]. split; [exact Hf|]. split; [|apply fire_subtitles].
    intros ms' s Hms' Hs. rewrite Hms in Hms'. injection Hms' as <-.
    rewrite Forall_forall in Hd. apply Hd, list_elem_of_In, Hs.
  - intros ft ml self text speaker id due Hr Hin.
    apply fade_invariant_reachable in Hr.
    pose proof (cancelled_invariant _ Hr) as Hc.
    destruct (show_subtitle_shape parent_window text speaker self)
      as (_ & _ & [[Ht _]|(ms & Hms & Ht & _)]);
      rewrite Ht, Hc in Hin; [destruct Hin|].
    destruct Hin as [[= <- <-]|[]]. exists ms.
    split; [exact Hms|reflexivity].
  - destruct parent_window as [[]|]; vm_compute; split; reflexivity.
Qed.

Lemma fade_timer_shared_witness :
  let self := final (SR.show_subtitle (Some true) (Py.lit "A") None
                       renderer0) in
  SR.reachable (Some true) 5 2 self
  /\ In (0%N, 5000) (SR.timers (SR.root self))
  /\ SR.timers (SR.root self) = [(0%N, 5000)]
  /\ texts (SR.fire (Some true) 0 self) = [].
Proof.
  cbv zeta.
  assert (Hr : SR.reachable (Some true) 5 2
                 (final (SR.show_subtitle (Some true) (Py.lit "A") None
                           renderer0))).
  { eapply SR.reachable_step;
      [apply (SR.reachable_init (Some true) 5 2 root0 eq_refl)
      |apply SR.step_show]. }
  assert (Hin : In (0%N, 5000)
                   (SR.timers
                      (SR.root
                         (final (SR.show_subtitle (Some true) (Py.lit "A")
                                   None renderer0)))))
    by (left; reflexivity).
  split; [exact Hr|]. split; [exact Hin|].
  destruct (proj1 (fade_timer_shared (Some true)) 5%float 2 _ 0%N 5000
              Hr Hin) as (Ht & _ & _ & Hf).
  split; [exact Ht|]. unfold texts. rewrite Hf. reflexivity.
Defined.

(** ** The orchestrator *)

Lemma clear_subtitles pw self : SR.subtitles (final (SR.clear pw self)) = [].
Proof. apply clear_shape. Qed.

(** C3, as stated, fails: the audio stream is stopped before the
    recognizer is. *)
Lemma stop_stops_audio_first :
  let run := RT.stop SR.module_parent_window (running0 (Py.lit "en")) in
  RT.is_running (running0 (Py.lit "en")) = true
  /\ trace run
     = [ Call Method.stop_recording; stream_stop_stream;
         Call Method.stop_recognition; stop_continuous_recognition;
         Call Method.clear ]
  /\ calls (trace run)
     <> [Method.stop_recognition; Method.stop_recording; Method.clear].
Proof. vm_compute. repeat split; try reflexivity. discriminate. Qed.

(** C3, amended: [stop] on a running pipeline stops the audio capture
    first, then the recognizer, then clears the renderer when there is
    one, in that order, and the renderer's caption list is empty
    afterwards; [stop] on a pipeline that is not running returns [False],
    calls nothing and changes nothing. *)
Theorem stop_order pw self :
  let run := RT.stop pw self in
  (RT.is_running self = true ->
   calls (trace run)
   = Method.stop_recording :: Method.stop_recognition
     :: match RT.subtitle_renderer self with
        | Some _ => [Method.clear]
        | None => []
        end
   /\ match RT.subtitle_renderer (final run) with
      | Some r => SR.subtitles r = []
      | None => RT.subtitle_renderer self = None
      end)
  /\ (RT.is_running self = false -> run = (Py.Ok false, self, [])).
Proof.
  cbv zeta. split.
  - intros Hr.
    unfold RT.stop, RT.on_audio_capture, RT.on_speech_to_text,
      RT.if_subtitle_renderer, AC.stop_recording, STT.stop_recognition.
    run. rewrite Hr. cbn [negb].
    destruct (RT.subtitle_renderer self) as [r0|] eqn:Hsr.
    + pose proof (clear_calls pw r0) as Hc.
      pose proof (clear_subtitles pw r0) as Hs.
      unfold trace, final in Hc, Hs.
      destruct (_ && _); destruct (_ && _);
        cbn [RT.subtitle_renderer RT.set_audio_capture
             RT.set_speech_to_text];
        rewrite ?Hsr;
        destruct (SR.clear pw r0) as [[[u|e] r1] t1]; cbn in Hc, Hs |- *;
        rewrite ?calls_app, ?Hc; split; solve [reflexivity|exact Hs].
    + destruct (_ && _); destruct (_ && _);
        cbn [RT.subtitle_renderer RT.set_audio_capture
             RT.set_speech_to_text];
        rewrite ?Hsr; cbn; rewrite ?Hsr; split;
        solve [reflexivity|exact Hsr].
  - intros Hr. unfold RT.stop. run. rewrite Hr. reflexivity.
Qed.

Lemma stop_order_witness :
  RT.is_running (running0 (Py.lit "en")) = true
  /\ calls (trace (RT.stop SR.module_parent_window (running0 (Py.lit "en"))))
     = [Method.stop_recording; Method.stop_recognition; Method.clear].
Proof.
  split; [reflexivity|].
  exact (proj1 (proj1 (stop_order SR.module_parent_window
                         (running0 (Py.lit "en"))) eq_refl)).
Defined.

(** C4, as stated, fails: the recognizer fails to start and [start]
    raises with the audio capture still recording; nothing stops it. *)
Lemma start_leaves_audio_recording :
  let run := RT.start true STT.SdkStartRaises (system0 (Py.lit "en")) in
  outcome run = Py.Raised Py.RuntimeError
  /\ trace run
     = [ Call Method.initialize_microphone_capture; audio_open;
         Call Method.start_recording; stream_start_stream;
         Call Method.start_recognition;
         SpeechRecognizer (Py.lit "en"); start_continuous_recognition ]
  /\ AC.is_recording (RT.audio_capture (final run)) = true.
Proof. vm_compute. repeat split; reflexivity. Qed.

(** C4, amended: when the microphone opens and the audio capture starts
    but the recognizer fails to start, [start] lets the recognizer's
    exception through without stopping the audio capture: the audio
    capture is left recording and the running flag stays false. *)
Theorem start_recognizer_failure sdk self :
  RT.is_running self = false ->
  AC.is_recording (RT.audio_capture self) = false ->
  sdk <> STT.SdkStarts ->
  let run := RT.start true sdk self in
  outcome run = Py.Raised Py.RuntimeError
  /\ In stream_start_stream (trace run)
  /\ ~ In stream_stop_stream (trace run)
  /\ ~ In Method.stop_recording (calls (trace run))
  /\ AC.is_recording (RT.audio_capture (final run)) = true
  /\ RT.is_running (final run) = false.
Proof.
  intros Hrun Hrec Hsdk. cbv zeta.
  destruct self as [[st rec] ld [lang rz isrec cb lm] tr sr cl running].
  cbn in Hrun, Hrec. subst running rec.
  unfold RT.start, RT.on_audio_capture, RT.on_speech_to_text,
    AC.initialize_microphone_capture, AC.start_recording,
    STT.start_recognition, STT.stop_recognition.
  run.
  destruct sdk; [congruence| |]; destruct isrec, rz; cbn;
    (split; [reflexivity|]); (split; [tauto|]);
    (split; [intros H; decompose [or] H; discriminate || contradiction|]);
    (split; [intros H; decompose [or] H; discriminate || contradiction|]);
    split; reflexivity.
Qed.

Lemma start_recognizer_failure_witness :
  RT.is_running (system0 (Py.lit "en")) = false
  /\ AC.is_recording (RT.audio_capture (system0 (Py.lit "en"))) = false
  /\ STT.SdkStartRaises <> STT.SdkStarts
  /\ AC.is_recording
       (RT.audio_capture
          (final (RT.start true STT.SdkStartRaises (system0 (Py.lit "en")))))
     = true.
Proof.
  assert (H3 : STT.SdkStartRaises <> STT.SdkStarts) by discriminate.
  split; [reflexivity|]. split; [reflexivity|]. split; [exact H3|].
  exact (proj1 (proj2 (proj2 (proj2 (proj2
           (start_recognizer_failure STT.SdkStartRaises
              (system0 (Py.lit "en")) eq_refl eq_refl H3)))))).
Defined.

(** The handler does nothing while the pipeline is not running. *)
Lemma handler_ignores_when_stopped pw w ev self :
  RT.is_running self = false ->
  RT._handle_transcription pw w ev self = (Py.Ok tt, self, []).
Proof.
  intros H. unfold RT._handle_transcription. run. rewrite H. reflexivity.
Qed.

(** The interim callback hands [interim_hola] to the transcription
    callback. *)
Lemma recognizing_callback_hola :
  STT._recognizing_callback (Py.lit "Hola")
    (RT.speech_to_text (running0 (Py.lit "es")))
  = Some interim_hola.
Proof. vm_compute. reflexivity. Qed.

(** C1, as stated, fails: the interim transcript "Hola" is translated and
    its translation "Hello" is inserted into the renderer's caption
    list. *)
Lemma interim_transcript_is_translated_and_shown :
  let run := RT._handle_transcription SR.module_parent_window world0
               interim_hola (running0 (Py.lit "es")) in
  RT.is_running (running0 (Py.lit "es")) = true
  /\ STT.is_final interim_hola = false
  /\ trace run
     = [ Call (Method.translate_text (Py.lit "Hola") (Py.lit "es"));
         post_translate (Py.lit "Hola") (Py.lit "es") (Py.lit "en");
         Call (Method.show_subtitle (Py.lit "Hello") None) ]
  /\ option_map texts (RT.subtitle_renderer (final run))
     = Some [Py.lit "Hello"].
Proof. vm_compute. repeat split; reflexivity. Qed.

(** C1, amended: an interim transcript with a text, handled while the
    pipeline runs, never reaches the language detection and changes
    neither the current language nor the recognizer; it is handed to the
    translator and, when there is a renderer, its translated text is
    shown, as for a final transcript. *)
Theorem interim_transcript pw w ev self :
  RT.is_running self = true ->
  STT.is_final ev = false ->
  STT.text ev <> [] ->
  let run := RT._handle_transcription pw w ev self in
  let text := STT.text ev in
  exists tr,
    outcome (TR.translate_text (RT.translation_net w) text
               (RT.current_language self) (RT.translation self))
    = Py.Ok tr
    /\ calls (trace run)
       = Method.translate_text text (RT.current_language self)
         :: match RT.subtitle_renderer self with
            | Some _ => [Method.show_subtitle (TR.translated_text tr) None]
            | None => []
            end
    /\ RT.subtitle_renderer (final run)
       = match RT.subtitle_renderer self with
         | Some r =>
             Some (final (SR.show_subtitle pw (TR.translated_text tr)
                            None r))
         | None => None
         end
    /\ RT.language_detection (final run) = RT.language_detection self
    /\ RT.speech_to_text (final run) = RT.speech_to_text self
    /\ RT.current_language (final run) = RT.current_language self.
Proof.
  intros Hrun Hfin Htext. cbv zeta.
  destruct self as [ac ld stt tl sr cl running]. cbn in Hrun. subst running.
  destruct ev as [text fin lc]. cbn in Hfin, Htext. subst fin.
  destruct (translate_text_returns (RT.translation_net w) text cl tl)
    as (tr & t & Htr & Hcalls).
  exists tr.
  cbn [STT.text RT.current_language RT.translation RT.subtitle_renderer].
  rewrite Htr. split; [reflexivity|].
  unfold RT._handle_transcription, RT.on_translation,
    RT.if_subtitle_renderer.
  destruct text as [|c text]; [congruence|].
  run.
  cbn [RT.is_running STT.text STT.is_final negb andb orb
       RT.current_language RT.translation Py.is_empty].
  rewrite Htr. cbn [RT.subtitle_renderer RT.set_translation].
  destruct sr as [r|].
  - pose proof (show_subtitle_calls pw (TR.translated_text tr) None r) as Hc.
    unfold trace, final in *.
    destruct (SR.show_subtitle pw (TR.translated_text tr) None r)
      as [[res r'] t'].
    cbn in Hc |- *. rewrite calls_app, Hcalls, Hc.
    repeat split; reflexivity.
  - cbn. rewrite app_nil_r, Hcalls. repeat split; reflexivity.
Qed.

Lemma interim_transcript_witness :
  RT.is_running (running0 (Py.lit "es")) = true
  /\ STT.is_final interim_hola = false
  /\ STT.text interim_hola <> []
  /\ RT.language_detection
       (final (RT._handle_transcription SR.module_parent_window world0
                 interim_hola (running0 (Py.lit "es"))))
     = RT.language_detection (running0 (Py.lit "es")).
Proof.
  assert (H1 : RT.is_running (running0 (Py.lit "es")) = true)
    by reflexivity.
  assert (H2 : STT.is_final interim_hola = false) by reflexivity.
  assert (H3 : STT.text interim_hola <> []) by discriminate.
  split; [exact H1|]. split; [exact H2|]. split; [exact H3|].
  destruct (interim_transcript SR.module_parent_window world0
              interim_hola (running0 (Py.lit "es")) H1 H2 H3)
    as (tr & _ & _ & _ & H & _).
  exact H.
Defined.

(* ===================================================================== *)
(** * Further properties *)
(* ===================================================================== *)

(** ** Translation: the call to the service *)

Lemma translate_text_posts net (text source_language : Py.str) self :
  Py.is_empty (Py.strip text) = false ->
  source_language <> TR.target_language self ->
  exists caption,
    TR.translate_text net text source_language self
    = (Py.Ok {| TR.translated_text := caption; TR.original_text := text |},
       self,
       [ Call (Method.translate_text text source_language);
         post_translate text source_language (TR.target_language self) ])
    /\ (forall s, translates net s -> caption = s)
    /\ ((forall s, ~ translates net s) -> caption = text).
Proof.
  intros Hb Hne.
  unfold TR.translate_text, TR.first_translation, TR.guard_ok. run.
  rewrite blank_test, Hb. unfold Py.eqb.
  rewrite bool_decide_eq_false_2 by exact Hne.
  destruct net as [|st body].
  - eexists. split; [reflexivity|]. split; [|reflexivity].
    intros s (docs & items & [=]).
  - destruct (st =? 200) eqn:Hst; cbn [andb].
    + apply Z.eqb_eq in Hst. subst st.
      destruct body as [|[[[|[[s0|]] items]|]] docs]; cbn;
        eexists; (split; [reflexivity|split]);
        try (intros s (docs' & items' & [=]); subst; reflexivity);
        try (intros; reflexivity).
      intros H. exfalso. apply (H s0). exists docs, items. reflexivity.
    + apply Z.eqb_neq in Hst.
      eexists. split; [reflexivity|]. split; [|reflexivity].
      intros s (docs & items & [=]). congruence.
Qed.

(** X1: a text with something to translate, into another language: one
    request goes out, whatever comes back the call returns, the
    translator is left as it is, and the translated text is the service's
    first translation when there is one and the input otherwise. *)
Theorem translate_text_degrades net (text source_language : Py.str) self :
  Py.is_empty (Py.strip text) = false ->
  source_language <> TR.target_language self ->
  let run := TR.translate_text net text source_language self in
  final run = self
  /\ trace run
     = [ Call (Method.translate_text text source_language);
         post_translate text source_language (TR.target_language self) ]
  /\ (forall s, translates net s ->
      outcome run
      = Py.Ok {| TR.translated_text := s; TR.original_text := text |})
  /\ ((forall s, ~ translates net s) ->
      outcome run
      = Py.Ok {| TR.translated_text := text; TR.original_text := text |}).
Proof.
  intros Hb Hne. cbv zeta.
  destruct (translate_text_posts net text source_language self Hb Hne)
    as (caption & Hrun & Hs & Hn).
  rewrite Hrun. unfold final, trace, outcome. cbn [fst snd].
  split; [reflexivity|]. split; [reflexivity|]. split.
  - intros s H. rewrite (Hs s H). reflexivity.
  - intros H. rewrite (Hn H). reflexivity.
Qed.

Lemma translate_text_degrades_witness :
  let self := {| TR.target_language := Py.lit "en" |} in
  let net := PostReturns 429 [] in
  Py.is_empty (Py.strip (Py.lit "Hola")) = false
  /\ Py.lit "es" <> TR.target_language self
  /\ outcome (TR.translate_text net (Py.lit "Hola") (Py.lit "es") self)
     = Py.Ok {| TR.translated_text := Py.lit "Hola";
                TR.original_text := Py.lit "Hola" |}.
Proof.
  cbv zeta.
  assert (H1 : Py.is_empty (Py.strip (Py.lit "Hola")) = false) by reflexivity.
  assert (H2 : Py.lit "es" <> Py.lit "en") by discriminate.
  split; [exact H1|]. split; [exact H2|].
  refine (proj2 (proj2 (proj2
            (translate_text_degrades (PostReturns 429 []) (Py.lit "Hola")
               (Py.lit "es") {| TR.target_language := Py.lit "en" |}
               H1 H2))) _).
  intros s (docs & items & [=]).
Defined.

(** X2: a new target language is the one the next call translates into: a
    text in that language comes back as it is with no request, and any
    other text is posted for translation into it. *)
Theorem set_target_language_next_call net (language_code : Py.str)
    (text source_language : Py.str) self :
  Py.is_empty (Py.strip text) = false ->
  let run := bind (TR.set_target_language language_code)
               (fun _ => TR.translate_text net text source_language) self in
  final run = {| TR.target_language := language_code |}
  /\ trace run
     = Call (Method.translate_text text source_language)
       :: (if Py.eqb source_language language_code then []
           else [post_translate text source_language language_code])
  /\ (source_language = language_code ->
      outcome run
      = Py.Ok {| TR.translated_text := text; TR.original_text := text |}).
Proof.
  intros Hb. cbv zeta.
  unfold TR.set_target_language.
  set (self' := {| TR.target_language := language_code |}).
  assert (Hrun : bind (put self')
                   (fun _ => TR.translate_text net text source_language) self
                 = TR.translate_text net text source_language self').
  { unfold bind, put.
    destruct (TR.translate_text net text source_language self')
      as [[r s2] t2]. reflexivity. }
  rewrite Hrun. unfold Py.eqb.
  destruct (decide (source_language = language_code)) as [->|Hne].
  - rewrite bool_decide_eq_true_2 by reflexivity.
    rewrite (translate_text_same net text language_code self' Hb eq_refl).
    repeat split; reflexivity.
  - rewrite bool_decide_eq_false_2 by exact Hne.
    destruct (translate_text_posts net text source_language self' Hb Hne)
      as (caption & Hr & _).
    rewrite Hr. split; [reflexivity|]. split; [reflexivity|].
    intros; contradiction.
Qed.

Lemma set_target_language_next_call_witness :
  Py.is_empty (Py.strip (Py.lit "Hola")) = false
  /\ trace (bind (TR.set_target_language (Py.lit "es"))
              (fun _ => TR.translate_text PostRaises (Py.lit "Hola")
                          (Py.lit "es"))
              {| TR.target_language := Py.lit "en" |})
     = [Call (Method.translate_text (Py.lit "Hola") (Py.lit "es"))].
Proof.
  assert (H1 : Py.is_empty (Py.strip (Py.lit "Hola")) = false) by reflexivity.
  split; [exact H1|].
  exact (proj1 (proj2 (set_target_language_next_call PostRaises (Py.lit "es")
                         (Py.lit "Hola") (Py.lit "es")
                         {| TR.target_language := Py.lit "en" |} H1))).
Defined.

(** ** Language detection: an accepted answer is cached *)

(** X3: when the guard lets the text through and the service answers with a
    confidence above the threshold, the answer is stored with the time of
    the update and returned; every later call made less than
    [cache_expiry] seconds after that returns the same hypothesis, posts
    nothing and changes nothing, whatever its text and whatever the
    service would say. *)
Theorem detect_language_caches now net text self iso conf :
  skips now text self = false ->
  answers net {| LD.iso6391Name := Some iso;
                 LD.confidenceScore := Some conf |} ->
  PrimFloat.ltb (LD.confidence_threshold self) conf = true ->
  let run := LD.detect_language now net text self in
  let h := {| LD.language_code := iso; LD.confidence := conf |} in
  outcome run = Py.Ok h
  /\ trace run = [Call (Method.detect_language text); post_languages text]
  /\ LD.cached_language (final run) = Some h
  /\ LD.last_detection_time (final run) = LD.time_at_update now
  /\ forall now' net' text',
       PrimFloat.ltb
         (PrimFloat.sub (LD.time_at_entry now') (LD.time_at_update now))
         (LD.cache_expiry self) = true ->
       LD.detect_language now' net' text' (final run)
       = (Py.Ok h, final run, [Call (Method.detect_language text')]).
Proof.
  intros Hg (r & ds & -> & Hd) Hlt. cbv zeta.
  assert (Hrun : LD.detect_language now (PostReturns 200 r) text self
                 = (Py.Ok {| LD.language_code := iso; LD.confidence := conf |},
                    LD.set_last_detection_time (LD.time_at_update now)
                      (LD.set_cached
                         {| LD.language_code := iso; LD.confidence := conf |}
                         self),
                    [Call (Method.detect_language text);
                     post_languages text])).
  { unfold LD.detect_language, LD.subscript, LD.first_detected. run.
    fold (skips now text self). rewrite Hg, Z.eqb_refl, Hd. cbn.
    rewrite Hlt. reflexivity. }
  rewrite Hrun. cbn [outcome trace final fst snd].
  repeat split.
  intros now' net' text' Hrecent.
  unfold LD.detect_language. run.
  unfold LD.cache_is_recent.
  cbn [LD.last_detection_time LD.cache_expiry LD.cached_language
       LD.set_last_detection_time LD.set_cached].
  rewrite Hrecent. cbn [andb]. rewrite !orb_true_r. reflexivity.
Qed.

Lemma detect_language_caches_witness :
  let now := {| LD.time_at_entry := 100; LD.time_at_update := 101 |} in
  let later := {| LD.time_at_entry := 130; LD.time_at_update := 131 |} in
  let text := Py.lit "Donde esta la estacion de tren" in
  let net :=
    PostReturns 200
      {| LD.documents :=
           Some [{| LD.detectedLanguage :=
                      Some {| LD.iso6391Name := Some (Py.lit "es");
                              LD.confidenceScore := Some 0.95%float |} |}] |} in
  let h := {| LD.language_code := Py.lit "es";
              LD.confidence := 0.95%float |} in
  skips now text LD.init = false
  /\ outcome (LD.detect_language later PostRaises text
                (final (LD.detect_language now net text LD.init)))
     = Py.Ok h.
Proof.
  cbv zeta. split; [reflexivity|].
  refine (f_equal outcome
            (proj2 (proj2 (proj2 (proj2
               (detect_language_caches
                  {| LD.time_at_entry := 100; LD.time_at_update := 101 |}
                  _ (Py.lit "Donde esta la estacion de tren") LD.init
                  (Py.lit "es") 0.95%float eq_refl _ eq_refl))))
               {| LD.time_at_entry := 130; LD.time_at_update := 131 |}
               PostRaises _ eq_refl)).
  eexists _, _. split; reflexivity.
Defined.

(** ** The renderer: what the labels show *)

Lemma fill_shown labels : forall subs,
  SR.fill labels subs = shown (length labels) subs.
Proof.
  unfold shown.
  induction labels as [|l labels IH]; intros subs; [reflexivity|].
  destruct subs as [|s subs]; cbn [SR.fill length take List.map app].
  - rewrite IH, take_nil. cbn. rewrite Nat.sub_0_r. reflexivity.
  - rewrite IH. reflexivity.
Qed.

Lemma show_subtitle_labels pw text speaker self :
  SR.subtitle_labels (final (SR.show_subtitle pw text speaker self))
  = SR.fill (SR.subtitle_labels self)
      (SR.subtitles (final (SR.show_subtitle pw text speaker self))).
Proof.
  renderer_unfold. run. unfold SR.fade_ms.
  show_subtitle_paths self pw; reflexivity.
Qed.

Lemma fade_oldest_subtitle_labels pw self s rest :
  SR.subtitles self = s :: rest ->
  SR.subtitle_labels (final (SR.fade_oldest_subtitle pw self))
  = SR.fill (SR.subtitle_labels self) rest.
Proof.
  intros H. renderer_unfold. run. rewrite H. unfold SR.fade_ms.
  destruct rest as [|s' rest]; cbn.
  - destruct pw as [[]|]; reflexivity.
  - destruct (Py.int_of_float _); reflexivity.
Qed.

Lemma clear_labels pw self :
  SR.subtitle_labels (final (SR.clear pw self))
  = SR.fill (SR.subtitle_labels self) [].
Proof.
  renderer_unfold. run. cbn.
  destruct (SR.fade_timer self); cbn; destruct pw as [[]|]; reflexivity.
Qed.

(** X4: after [show_subtitle], after [fade_oldest_subtitle] on a renderer
    with lines, and after [clear], the labels show the caption list: label
    [i] shows line [i], with its speaker in front when it has one, and
    the labels past the last line are blank; the number of labels never
    changes.  On a renderer with [max_lines] labels, [max_lines] at least
    1, every line held after [show_subtitle] is on a label. *)
Theorem labels_show_captions pw :
  (forall text speaker self,
     let self' := final (SR.show_subtitle pw text speaker self) in
     SR.subtitle_labels self'
     = shown (length (SR.subtitle_labels self)) (SR.subtitles self'))
  /\ (forall self,
        SR.subtitles self <> [] ->
        let self' := final (SR.fade_oldest_subtitle pw self) in
        SR.subtitle_labels self'
        = shown (length (SR.subtitle_labels self)) (SR.subtitles self')
        /\ SR.subtitles self' = tail (SR.subtitles self))
  /\ (forall self,
        SR.subtitle_labels (final (SR.clear pw self))
        = repeat [] (length (SR.subtitle_labels self)))
  /\ (forall text speaker self,
        1 <= SR.max_lines self ->
        length (SR.subtitle_labels self) = Z.to_nat (SR.max_lines self) ->
        let self' := final (SR.show_subtitle pw text speaker self) in
        SR.subtitle_labels self'
        = List.map SR.display_text (SR.subtitles self')
          ++ repeat [] (Z.to_nat (SR.max_lines self)
                        - length (SR.subtitles self'))).
Proof.
  split; [|split; [|split]].
  - intros text speaker self. cbv zeta.
    rewrite show_subtitle_labels. apply fill_shown.
  - intros self Hne. cbv zeta.
    destruct (SR.subtitles self) as [|s rest] eqn:Hs; [congruence|].
    destruct (fade_oldest_subtitle_shape pw self s rest Hs) as [Hr _].
    rewrite Hr. split; [|reflexivity].
    rewrite (fade_oldest_subtitle_labels pw self s rest Hs).
    apply fill_shown.
  - intros self. rewrite clear_labels, fill_shown. unfold shown.
    rewrite take_nil. cbn. rewrite Nat.sub_0_r. reflexivity.
  - intros text speaker self H Hl. cbv zeta.
    rewrite show_subtitle_labels, fill_shown, Hl. unfold shown.
    pose proof (show_subtitle_bounded pw text speaker self H) as Hb.
    unfold Py.len in Hb.
    rewrite take_ge by lia. reflexivity.
Qed.

Lemma labels_show_captions_witness :
  SR.subtitles
    (final (SR.show_subtitle (Some true) (Py.lit "A") None renderer0)) <> []
  /\ SR.subtitle_labels
       (final (SR.fade_oldest_subtitle (Some true)
                 (final (SR.show_subtitle (Some true) (Py.lit "A") None
                           renderer0))))
     = [[]; []].
Proof.
  assert (H : SR.subtitles
                (final (SR.show_subtitle (Some true) (Py.lit "A") None
                          renderer0)) <> []) by discriminate.
  split; [exact H|].
  exact (proj1 (proj1 (proj2 (labels_show_captions (Some true))) _ H)).
Defined.

(** ** The renderer: [clear] *)

(** X5: [clear] empties the caption list, forgets the fade timer and takes it
    off the queue, and leaves the clock alone, whether it returns or
    raises; a second [clear] changes nothing more. *)
Theorem clear_idempotent pw self :
  let self' := final (SR.clear pw self) in
  SR.subtitles self' = []
  /\ SR.fade_timer self' = None
  /\ SR.timers (SR.root self') = cancelled self
  /\ SR.now (SR.root self') = SR.now (SR.root self)
  /\ final (SR.clear pw self') = self'.
Proof.
  cbv zeta. unfold cancelled. renderer_unfold. run. cbn.
  destruct self as [ft ml subs [id|] labels [now timers next wd]]; cbn;
    destruct pw as [[]|]; cbn; repeat split;
    rewrite ?fill_shown; unfold shown; cbn;
    rewrite ?take_nil, ?Nat.sub_0_r, ?length_app, ?repeat_length; cbn;
    rewrite ?Nat.add_0_r; reflexivity.
Qed.

(** ** The renderer: with [parent_window] unbound no line ever fades *)

Lemma show_subtitle_unbound text speaker self :
  let run := SR.show_subtitle None text speaker self in
  outcome run = Py.Raised (Py.NameError "parent_window")
  /\ SR.fade_timer (final run) = None
  /\ SR.timers (SR.root (final run)) = cancelled self.
Proof.
  cbv zeta. unfold cancelled. renderer_unfold. run.
  destruct (SR.fade_timer self) eqn:Hf; cbn;
    destruct (SR.max_lines self <? _); cbn; rewrite ?Hf;
    repeat split; reflexivity.
Qed.

Lemma clear_fade_timer pw self :
  SR.fade_timer (final (SR.clear pw self)) = None.
Proof.
  renderer_unfold. run. cbn.
  destruct self as [ft ml subs [id|] labels [now timers next wd]]; cbn;
    destruct pw as [[]|]; reflexivity.
Qed.

Lemma no_timer_unbound ft ml self :
  SR.reachable None ft ml self ->
  SR.timers (SR.root self) = [] /\ SR.fade_timer self = None.
Proof.
  induction 1 as [w Hw|self self' _ [IHt IHf] Hs].
  - split; [exact Hw|reflexivity].
  - destruct Hs as [text speaker self|self|x self|id due self Hin Hdue].
    + destruct (show_subtitle_unbound text speaker self) as (_ & Hf & Ht).
      split; [|exact Hf]. rewrite Ht. unfold cancelled.
      rewrite IHf. exact IHt.
    + destruct (clear_shape None self) as (_ & _ & Ht).
      split; [|exact (clear_fade_timer None self)].
      rewrite Ht. unfold cancelled.
      rewrite IHf. exact IHt.
    + split; assumption.
    + rewrite IHt in Hin. destruct Hin.
Qed.

(** X6: as the module stands, [parent_window] is unbound: every
    [show_subtitle] inserts its line and then raises [NameError] before
    it sets the fade timer.  So in every state the renderer can reach the
    timer queue is empty and [fade_timer] is [None], and however long the
    main loop runs the caption list stays as it is: lines leave only when
    a newer line pushes them out or on [clear]. *)
Theorem captions_never_fade fade_timeout max_lines self :
  SR.reachable SR.module_parent_window fade_timeout max_lines self ->
  SR.timers (SR.root self) = []
  /\ SR.fade_timer self = None
  /\ (forall text speaker,
        outcome (SR.show_subtitle SR.module_parent_window text speaker self)
        = Py.Raised (Py.NameError "parent_window"))
  /\ (forall limit,
        SR.subtitles (SR.mainloop_until SR.module_parent_window limit self)
        = SR.subtitles self).
Proof.
  intros Hr. destruct (no_timer_unbound _ _ _ Hr) as [Ht Hf].
  split; [exact Ht|]. split; [exact Hf|]. split.
  - intros text speaker. apply show_subtitle_unbound.
  - intros limit. unfold SR.mainloop_until, SR.rounds. rewrite Ht.
    destruct (2 * length (SR.subtitles self) + length (@nil (N * Z)))%nat;
      cbn [SR.mainloop]; rewrite Ht; reflexivity.
Qed.

Lemma captions_never_fade_witness :
  let self := show_all SR.module_parent_window
                [Py.lit "A"; Py.lit "B"; Py.lit "C"] renderer0 in
  SR.reachable SR.module_parent_window 5 2 self
  /\ texts (SR.mainloop_until SR.module_parent_window 3600000 self)
     = [Py.lit "B"; Py.lit "C"].
Proof.
  cbv zeta.
  assert (Hr : SR.reachable SR.module_parent_window 5 2
                 (show_all SR.module_parent_window
                    [Py.lit "A"; Py.lit "B"; Py.lit "C"] renderer0)).
  { cbn [show_all].
    do 3 (eapply SR.reachable_step; [|apply SR.step_show]).
    apply (SR.reachable_init SR.module_parent_window 5 2 root0 eq_refl). }
  split; [exact Hr|].
  unfold texts.
  rewrite (proj2 (proj2 (proj2 (captions_never_fade _ _ _ Hr))) 3600000).
  reflexivity.
Defined.

(** ** The renderer: the main loop only takes lines off the front *)

Lemma mainloop_suffix pw limit fuel : forall self,
  exists k,
    SR.subtitles (SR.mainloop pw fuel limit self) = drop k (SR.subtitles self).
Proof.
  induction fuel as [|fuel IH]; intros self; cbn [SR.mainloop];
    destruct (SR.earliest (SR.timers (SR.root self))) as [[id due]|];
    try destruct (due <=? limit); try (exists 0%nat; reflexivity).
  destruct (IH (SR.fire pw id (SR.tick due self))) as [k Hk].
  exists (1 + k)%nat. rewrite Hk, fire_subtitles.
  cbn [SR.subtitles SR.tick SR.set_root].
  destruct (SR.subtitles self); cbn [tail]; [rewrite !drop_nil|];
    reflexivity.
Qed.

(** X7: whatever [parent_window] is bound to and whatever is queued, letting
    the main loop run never adds or reorders lines: what is left is the
    caption list without some of its oldest lines, and no timer due by
    the time reached is left in the queue. *)
Theorem mainloop_until_suffix pw limit self :
  let self' := SR.mainloop_until pw limit self in
  (exists k, SR.subtitles self' = drop k (SR.subtitles self))
  /\ (forall id due, In (id, due) (SR.timers (SR.root self')) -> limit < due)
  /\ SR.max_lines self' = SR.max_lines self.
Proof.
  cbv zeta. split; [exact (mainloop_suffix pw limit (SR.rounds self) self)|].
  split.
  - intros id due. apply mainloop_until_runs_due_timers.
  - unfold SR.mainloop_until. generalize (SR.rounds self) as fuel.
    intros fuel. revert self.
    induction fuel as [|fuel IH]; intros self; cbn [SR.mainloop];
      destruct (SR.earliest (SR.timers (SR.root self))) as [[id due]|];
      try destruct (due <=? limit); try reflexivity.
    rewrite IH. unfold SR.fire.
    set (self0 := SR.set_root _ _).
    change (SR.max_lines self) with (SR.max_lines self0).
    clearbody self0. renderer_unfold. run. unfold SR.fade_ms.
    destruct (SR.subtitles self0) as [|s [|s' rest]]; cbn;
      [reflexivity|destruct pw as [[]|]; reflexivity|].
    destruct (Py.int_of_float _); reflexivity.
Qed.

(** ** The recognizer *)

Lemma region_code_unknown (language_code : Py.str) :
  ~ In language_code
       [Py.lit "en"; Py.lit "es"; Py.lit "fr"; Py.lit "de"; Py.lit "ja";
        Py.lit "zh"] ->
  region_code language_code = language_code.
Proof.
  intros H. unfold region_code, STT.init. cbn [STT.language_map].
  rewrite not_elem_of_list_to_map_1; [reflexivity|].
  intros Hin. apply H, list_elem_of_In. exact Hin.
Qed.

(** X8: [set_language] gives the recognizer the region code of the six
    languages of the table and any other code as it is.  It never starts
    recognition: when a recognizer exists it stops the running session
    and leaves it stopped. *)
Theorem set_language_stops_recognition (language_code : Py.str) self :
  STT.language_map self = STT.language_map (STT.init []) ->
  let run := STT.set_language language_code self in
  outcome run = Py.Ok tt
  /\ STT.speech_recognition_language (final run) = region_code language_code
  /\ STT.recognizer (final run) = STT.recognizer self
  /\ STT.is_recognizing (final run)
     = STT.is_recognizing self && negb (STT.recognizer self)
  /\ trace run
     = Call (Method.set_language language_code)
       :: (if STT.recognizer self then
             Call Method.stop_recognition
             :: (if STT.is_recognizing self
                 then [stop_continuous_recognition] else [])
           else [])
  /\ List.map region_code
       [Py.lit "en"; Py.lit "es"; Py.lit "fr"; Py.lit "de"; Py.lit "ja";
        Py.lit "zh"]
     = [Py.lit "en-US"; Py.lit "es-ES"; Py.lit "fr-FR"; Py.lit "de-DE";
        Py.lit "ja-JP"; Py.lit "zh-CN"]
  /\ (forall c,
        ~ In c [Py.lit "en"; Py.lit "es"; Py.lit "fr"; Py.lit "de";
                Py.lit "ja"; Py.lit "zh"] ->
        region_code c = c).
Proof.
  intros Hm. cbv zeta.
  split; [|split; [|split; [|split; [|split; [|split]]]]].
  6: vm_compute; reflexivity.
  6: apply region_code_unknown.
  all: destruct self as [lang [] [] cb lm]; cbn in Hm; subst lm;
    reflexivity.
Qed.

Lemma set_language_stops_recognition_witness :
  let self := final (STT.start_recognition STT.SdkStarts
                       (STT.init (Py.lit "en"))) in
  STT.language_map self = STT.language_map (STT.init [])
  /\ STT.is_recognizing self = true
  /\ STT.is_recognizing (final (STT.set_language (Py.lit "es") self)) = false
  /\ STT.speech_recognition_language
       (final (STT.set_language (Py.lit "es") self)) = Py.lit "es-ES".
Proof.
  cbv zeta.
  pose (self := final (STT.start_recognition STT.SdkStarts
                         (STT.init (Py.lit "en")))).
  assert (Hm : STT.language_map self = STT.language_map (STT.init []))
    by reflexivity.
  destruct (set_language_stops_recognition (Py.lit "es") self Hm)
    as (_ & Hl & _ & Hr & _).
  split; [exact Hm|]. split; [reflexivity|]. split; [exact Hr|].
  exact (eq_trans Hl eq_refl).
Defined.

(** X9: [start_recognition], when the SDK starts, leaves a recognizer that is
    recognizing, after stopping the session that was running, if any;
    [stop_recognition] then stops it with one call to the SDK, and a
    second [stop_recognition] calls nothing and changes nothing. *)
Theorem recognition_round_trip self :
  let started := STT.start_recognition STT.SdkStarts self in
  let stopped := STT.stop_recognition (final started) in
  outcome started = Py.Ok tt
  /\ STT.recognizer (final started) = true
  /\ STT.is_recognizing (final started) = true
  /\ trace started
     = Call Method.start_recognition
       :: (if STT.is_recognizing self then
             Call Method.stop_recognition
             :: (if STT.recognizer self
                 then [stop_continuous_recognition] else [])
           else [])
       ++ [SpeechRecognizer (STT.speech_recognition_language self);
           start_continuous_recognition]
  /\ trace stopped = [Call Method.stop_recognition; stop_continuous_recognition]
  /\ STT.is_recognizing (final stopped) = false
  /\ STT.stop_recognition (final stopped)
     = (Py.Ok tt, final stopped, [Call Method.stop_recognition]).
Proof.
  cbv zeta. destruct self as [lang [] [] cb lm]; repeat split; reflexivity.
Qed.

(** X10: once the SDK has cancelled or ended the session, [stop_recognition]
    calls nothing; [cleanup] stops a session that is still running, with
    one call to the SDK, forgets the recognizer, and does nothing when
    called again. *)
Theorem recognizer_cleanup self :
  let run := STT.cleanup self in
  outcome run = Py.Ok tt
  /\ STT.recognizer (final run) = false
  /\ (STT.recognizer self = true -> STT.is_recognizing (final run) = false)
  /\ trace run
     = (if STT.recognizer self then
          Call Method.stop_recognition
          :: (if STT.is_recognizing self
              then [stop_continuous_recognition] else [])
        else [])
  /\ STT.cleanup (final run) = (Py.Ok tt, final run, [])
  /\ (forall callback,
        callback = STT._canceled_callback
        \/ callback = STT._session_stopped_callback ->
        STT.is_recognizing (final (callback self)) = false
        /\ STT.stop_recognition (final (callback self))
           = (Py.Ok tt, final (callback self), [Call Method.stop_recognition])).
Proof.
  cbv zeta.
  destruct self as [lang [] [] cb lm]; repeat split; try reflexivity;
    try discriminate;
    match goal with H : _ \/ _ |- _ => destruct H as [->| ->] end;
    reflexivity.
Qed.

(** ** The audio capture *)

(** X11: [start_recording] starts the stream only when a stream is open and
    not yet recording, and otherwise returns [False] and changes nothing;
    [stop_recording] undoes it; a failure to open the microphone is
    reported as [False], not raised, and opens nothing. *)
Theorem recording_round_trip self :
  outcome (AC.start_recording self)
  = Py.Ok (AC.stream self && negb (AC.is_recording self))
  /\ (AC.stream self && negb (AC.is_recording self) = false ->
      AC.start_recording self
      = (Py.Ok false, self, [Call Method.start_recording]))
  /\ (AC.stream self = true -> AC.is_recording self = false ->
      let started := AC.start_recording self in
      AC.is_recording (final started) = true
      /\ trace started = [Call Method.start_recording; stream_start_stream]
      /\ AC.stop_recording (final started)
         = (Py.Ok true, self, [Call Method.stop_recording; stream_stop_stream]))
  /\ (AC.is_recording self = false ->
      AC.stop_recording self
      = (Py.Ok false, self, [Call Method.stop_recording]))
  /\ AC.initialize_microphone_capture false self
     = (Py.Ok false, self,
        [Call Method.initialize_microphone_capture; audio_open]).
Proof.
  destruct self as [[] []]; repeat split; try reflexivity; discriminate.
Qed.

Lemma recording_round_trip_witness :
  let self := final (AC.initialize_microphone_capture true AC.init) in
  AC.stream self = true /\ AC.is_recording self = false
  /\ AC.stop_recording (final (AC.start_recording self))
     = (Py.Ok true, self, [Call Method.stop_recording; stream_stop_stream]).
Proof.
  cbv zeta. split; [reflexivity|]. split; [reflexivity|].
  exact (proj2 (proj2 (proj1 (proj2 (proj2
           (recording_round_trip
              (final (AC.initialize_microphone_capture true AC.init)))))
           eq_refl eq_refl))).
Defined.

(** ** The orchestrator: traces of the components *)

Lemma device_events_app t1 t2 :
  device_events (t1 ++ t2) = device_events t1 ++ device_events t2.
Proof. apply List.filter_app. Qed.

Lemma translate_requests_app t1 t2 :
  translate_requests (t1 ++ t2)
  = translate_requests t1 ++ translate_requests t2.
Proof. apply List.filter_app. Qed.

Lemma translate_text_quiet net text source_language self :
  exists r t,
    TR.translate_text net text source_language self = (Py.Ok r, self, t)
    /\ calls t = [Method.translate_text text source_language]
    /\ device_events t = [].
Proof.
  unfold TR.translate_text, TR.first_translation. run.
  destruct (_ || _); [eexists _, _; repeat split; reflexivity|].
  destruct (Py.eqb _ _); [eexists _, _; repeat split; reflexivity|].
  destruct net as [|st body]; [eexists _, _; repeat split; reflexivity|].
  destruct (TR.guard_ok st body); [|eexists _, _; repeat split; reflexivity].
  destruct body as [|[[[|[[s|]] trs]|]] body];
    eexists _, _; repeat split; reflexivity.
Qed.

Lemma detect_language_quiet now net text self :
  exists h ld t,
    LD.detect_language now net text self = (Py.Ok h, ld, t)
    /\ calls t = [Method.detect_language text]
    /\ device_events t = []
    /\ translate_requests t = [].
Proof.
  unfold LD.detect_language, LD.subscript, LD.first_detected. run.
  destruct (_ || _); [eexists _, _, _; repeat split; reflexivity|].
  destruct net as [|st r]; [eexists _, _, _; repeat split; reflexivity|].
  destruct (st =? 200); [|eexists _, _, _; repeat split; reflexivity].
  destruct (LD.documents r) as [[|[[[iso [conf|]]|]] ds]|]; cbn;
    try (eexists _, _, _; repeat split; reflexivity).
  destruct (PrimFloat.ltb _ conf); cbn;
    [destruct iso|]; eexists _, _, _; repeat split; reflexivity.
Qed.

Lemma show_subtitle_trace pw text speaker self :
  trace (SR.show_subtitle pw text speaker self)
  = [Call (Method.show_subtitle text speaker)].
Proof.
  renderer_unfold. run. unfold SR.fade_ms.
  show_subtitle_paths self pw; reflexivity.
Qed.

(** [_handle_transcription] is its guard followed by its two halves. *)
Lemma handler_steps pw w ev self :
  RT._handle_transcription pw w ev self
  = if negb (RT.is_running self) || Py.is_empty (STT.text ev)
    then (Py.Ok tt, self, [])
    else bind (detection_step w ev)
           (fun _ => display_step pw (RT.translation_net w) (STT.text ev))
           self.
Proof.
  unfold RT._handle_transcription.
  unfold bind at 1. unfold get at 1.
  destruct (negb (RT.is_running self) || Py.is_empty (STT.text ev)).
  - reflexivity.
  - match goal with
    | |- _ = ?R =>
        transitivity (let '(r, s2, t2) := R in (r, s2, t2));
          [reflexivity | destruct R as [[? ?] ?]; reflexivity]
    end.
Qed.

Lemma display_step_run pw (net : post_outcome (list TR.document))
    (text : Py.str) (self0 : RT.t) :
  exists tr t,
    TR.translate_text net text (RT.current_language self0)
      (RT.translation self0) = (Py.Ok tr, RT.translation self0, t)
    /\ calls t = [Method.translate_text text (RT.current_language self0)]
    /\ device_events t = []
    /\ display_step pw net text self0
       = match RT.subtitle_renderer self0 with
         | Some r =>
             let shown := SR.show_subtitle pw (TR.translated_text tr) None r in
             (outcome shown, RT.set_subtitle_renderer (final shown) self0,
              t ++ [Call (Method.show_subtitle (TR.translated_text tr) None)])
         | None => (Py.Ok tt, self0, t)
         end.
Proof.
  destruct (translate_text_quiet net text (RT.current_language self0)
              (RT.translation self0)) as (tr & t & Htr & Hc & Hd).
  exists tr, t. split; [exact Htr|]. split; [exact Hc|]. split; [exact Hd|].
  unfold display_step, RT.on_translation, RT.if_subtitle_renderer. run.
  rewrite Htr.
  destruct self0 as [ac ld stt tl [r|] cl running];
    cbn [RT.subtitle_renderer RT.set_translation RT.translation].
  - pose proof (show_subtitle_trace pw (TR.translated_text tr) None r) as Ht.
    cbv zeta. unfold outcome, final, trace in *.
    destruct (SR.show_subtitle pw (TR.translated_text tr) None r)
      as [[res r'] t'].
    cbn in Ht |- *. subst t'. destruct res; reflexivity.
  - rewrite app_nil_r. reflexivity.
Qed.

Lemma set_language_run (language_code : Py.str) (self : STT.t) :
  exists t,
    STT.set_language language_code self
    = (Py.Ok tt,
       STT.set_speech_recognition_language
         (default language_code (STT.language_map self !! language_code))
         (if STT.recognizer self && STT.is_recognizing self
          then STT.set_is_recognizing false self else self),
       t)
    /\ calls t
       = Method.set_language language_code
         :: (if STT.recognizer self then [Method.stop_recognition] else [])
    /\ device_events t
       = (if STT.recognizer self && STT.is_recognizing self
          then [stop_continuous_recognition] else [])
    /\ translate_requests t = [].
Proof.
  unfold STT.set_language, STT.stop_recognition. run.
  destruct self as [lang [] [] cb lm]; cbn;
    eexists; repeat split; reflexivity.
Qed.

(** What the detection half of the handler leaves alone. *)
Lemma detection_step_run w ev self :
  exists self' t,
    detection_step w ev self = (Py.Ok tt, self', t)
    /\ RT.audio_capture self' = RT.audio_capture self
    /\ RT.translation self' = RT.translation self
    /\ RT.subtitle_renderer self' = RT.subtitle_renderer self
    /\ RT.is_running self' = RT.is_running self
    /\ STT.recognizer (RT.speech_to_text self')
       = STT.recognizer (RT.speech_to_text self)
    /\ (device_events t = []
        \/ device_events t = [stop_continuous_recognition])
    /\ translate_requests t = []
    /\ (STT.is_final ev && (15 <? Py.len (STT.text ev)) = false ->
        self' = self /\ t = []).
Proof.
  unfold detection_step. cbv zeta.
  destruct (STT.is_final ev && (15 <? Py.len (STT.text ev))).
  2: { exists self, []. repeat split; try reflexivity. left; reflexivity. }
  destruct (detect_language_quiet (RT.detection_clock w) (RT.detection_net w)
              (STT.text ev) (RT.language_detection self))
    as (h & ld' & t & Hd & _ & Hq & Hp).
  unfold RT.on_language_detection, RT.on_speech_to_text. run. rewrite Hd.
  destruct self as [ac ld stt tl sr cl running].
  cbn [RT.language_detection RT.set_language_detection RT.current_language
       RT.speech_to_text RT.set_current_language RT.audio_capture
       RT.translation RT.subtitle_renderer RT.is_running] in *.
  destruct (negb (Py.eqb (LD.language_code h) cl)).
  - destruct (set_language_run (LD.language_code h) stt)
      as (t2 & Hs & _ & Hq2 & Hp2).
    cbn [RT.speech_to_text RT.set_language_detection].
    rewrite Hs. eexists _, _. split; [reflexivity|].
    cbn [RT.language_detection RT.set_language_detection RT.current_language
         RT.speech_to_text RT.set_current_language RT.audio_capture
         RT.translation RT.subtitle_renderer RT.is_running
         RT.set_speech_to_text app].
    repeat split; try discriminate.
    + destruct stt as [lang [] [] cb lm]; reflexivity.
    + rewrite device_events_app, Hq, Hq2. cbn [app].
      destruct (_ && _); [right|left]; reflexivity.
    + rewrite translate_requests_app, Hp, Hp2. reflexivity.
  - eexists _, _. split; [reflexivity|].
    cbn. rewrite app_nil_r. repeat split; try discriminate; try assumption.
    left. exact Hq.
Qed.

(** ** The orchestrator: starting and stopping *)

(** X12: [start] on a pipeline that is not running, with a microphone
    that opens and an SDK that starts, returns [True] and leaves the
    pipeline running, the audio capture recording and the recognizer
    recognizing in the language configured; every later [start] is then
    refused: it returns [False], calls nothing and changes nothing. *)
Theorem start_runs_once self :
  RT.is_running self = false ->
  let run := RT.start true STT.SdkStarts self in
  outcome run = Py.Ok true
  /\ RT.is_running (final run) = true
  /\ AC.stream (RT.audio_capture (final run)) = true
  /\ AC.is_recording (RT.audio_capture (final run)) = true
  /\ STT.is_recognizing (RT.speech_to_text (final run)) = true
  /\ In (SpeechRecognizer
           (STT.speech_recognition_language (RT.speech_to_text self)))
        (trace run)
  /\ (forall opens sdk,
        RT.start opens sdk (final run) = (Py.Ok false, final run, [])).
Proof.
  intros Hrun. cbv zeta.
  destruct self as [[st rec] ld [lang rz isrec cb lm] tr sr cl running].
  cbn in Hrun. subst running.
  unfold RT.start, RT.on_audio_capture, RT.on_speech_to_text,
    AC.initialize_microphone_capture, AC.start_recording,
    STT.start_recognition, STT.stop_recognition.
  run.
  destruct rec, isrec, rz; cbn; repeat split; reflexivity || tauto.
Qed.

Lemma start_runs_once_witness :
  RT.is_running (system0 (Py.lit "es")) = false
  /\ In (SpeechRecognizer (Py.lit "es"))
        (trace (RT.start true STT.SdkStarts (system0 (Py.lit "es"))))
  /\ RT.start true STT.SdkStarts
       (final (RT.start true STT.SdkStarts (system0 (Py.lit "es"))))
     = (Py.Ok false,
        final (RT.start true STT.SdkStarts (system0 (Py.lit "es"))), []).
Proof.
  destruct (start_runs_once (system0 (Py.lit "es")) eq_refl)
    as (_ & _ & _ & _ & _ & Hin & Hre).
  split; [reflexivity|]. split; [exact Hin|].
  exact (Hre true STT.SdkStarts).
Defined.

(** X13: when the microphone does not open, [start] returns [False]
    after the one attempt to open it: the error of [PyAudio] is caught,
    the recognizer is never reached, nothing is recorded and the
    pipeline is left as it was, not running. *)
Theorem start_microphone_failure sdk self :
  RT.is_running self = false ->
  RT.start false sdk self
  = (Py.Ok false, self,
     [Call Method.initialize_microphone_capture; audio_open]).
Proof.
  intros Hrun.
  destruct self as [[st rec] ld stt tr sr cl running].
  cbn in Hrun. subst running. reflexivity.
Qed.

Lemma start_microphone_failure_witness :
  RT.is_running (system0 (Py.lit "en")) = false
  /\ final (RT.start false STT.SdkStarts (system0 (Py.lit "en")))
     = system0 (Py.lit "en").
Proof.
  split; [reflexivity|].
  exact (f_equal final
           (start_microphone_failure STT.SdkStarts (system0 (Py.lit "en"))
              eq_refl)).
Defined.

(** X14: whether [stop] completes.  With a renderer in place and the
    name [parent_window] unbound, as it is in the module, [stop] on a
    running pipeline ends on [NameError] in [clear]: the caption list has
    been emptied, but the running flag is still set, so a later [start]
    is refused.  With no renderer, or with the name bound, [stop]
    returns [True] and the pipeline is no longer running. *)
Theorem stop_completes pw self :
  RT.is_running self = true ->
  let run := RT.stop pw self in
  match pw, RT.subtitle_renderer self with
  | None, Some _ =>
      outcome run = Py.Raised (Py.NameError "parent_window")
      /\ RT.is_running (final run) = true
      /\ (exists r, RT.subtitle_renderer (final run) = Some r
                    /\ SR.subtitles r = [] /\ SR.fade_timer r = None)
      /\ (forall opens sdk,
            RT.start opens sdk (final run) = (Py.Ok false, final run, []))
  | _, _ =>
      outcome run = Py.Ok true /\ RT.is_running (final run) = false
  end.
Proof.
  intros Hrun. cbv zeta.
  destruct self as [[st rec] ld [lang rz isrec cb lm] tr sr cl running].
  cbn in Hrun. subst running.
  unfold RT.stop, RT.on_audio_capture, RT.on_speech_to_text,
    RT.if_subtitle_renderer, AC.stop_recording, STT.stop_recognition.
  renderer_unfold. run.
  cbn [RT.is_running RT.subtitle_renderer negb].
  destruct pw as [[]|], sr as [[ft ml subs [id|] labels root]|];
    destruct st, rec, rz, isrec; cbn;
    repeat split; try reflexivity;
    eexists; repeat split; reflexivity.
Qed.

Lemma stop_completes_witness :
  RT.is_running (running0 (Py.lit "en")) = true
  /\ outcome (RT.stop SR.module_parent_window (running0 (Py.lit "en")))
     = Py.Raised (Py.NameError "parent_window")
  /\ RT.is_running
       (final (RT.stop SR.module_parent_window (running0 (Py.lit "en"))))
     = true.
Proof.
  split; [reflexivity|].
  pose proof (stop_completes SR.module_parent_window
                (running0 (Py.lit "en")) eq_refl) as H.
  cbv zeta in H. exact (conj (proj1 H) (proj1 (proj2 H))).
Defined.

(** ** The orchestrator: one run of the transcription handler *)

Lemma strip_not_empty (text : Py.str) :
  Py.is_empty (Py.strip text) = false -> Py.is_empty text = false.
Proof. destruct text; [discriminate|reflexivity]. Qed.

(** The run of the handler on a running pipeline and a transcript with a
    text, in terms of its two halves. *)
Lemma handler_run pw w ev self :
  RT.is_running self = true ->
  Py.is_empty (STT.text ev) = false ->
  exists self1 t1 tr t2,
    detection_step w ev self = (Py.Ok tt, self1, t1)
    /\ TR.translate_text (RT.translation_net w) (STT.text ev)
         (RT.current_language self1) (RT.translation self)
       = (Py.Ok tr, RT.translation self, t2)
    /\ device_events t2 = []
    /\ RT._handle_transcription pw w ev self
       = match RT.subtitle_renderer self with
         | Some r =>
             let shown :=
               SR.show_subtitle pw (TR.translated_text tr) None r in
             (outcome shown, RT.set_subtitle_renderer (final shown) self1,
              t1 ++ t2
              ++ [Call (Method.show_subtitle (TR.translated_text tr) None)])
         | None => (Py.Ok tt, self1, t1 ++ t2)
         end.
Proof.
  intros Hrun Htext.
  destruct (detection_step_run w ev self)
    as (self1 & t1 & Hd & _ & Htl & Hsr & _).
  destruct (display_step_run pw (RT.translation_net w) (STT.text ev) self1)
    as (tr & t2 & Htr & _ & Hq & Hs).
  rewrite Htl in Htr. rewrite Hsr in Hs.
  exists self1, t1, tr, t2.
  split; [exact Hd|]. split; [exact Htr|]. split; [exact Hq|].
  rewrite handler_steps, Hrun, Htext. cbn [negb orb].
  unfold bind at 1. rewrite Hd, Hs.
  destruct (RT.subtitle_renderer self); reflexivity.
Qed.

(** X15: what no run of the handler does, whatever the transcript, the
    services and the state: it leaves the audio capture, the translator
    and the running flag as they are, it neither creates nor drops the
    recognizer, and of PyAudio and the speech SDK it calls at most
    [stop_continuous_recognition], once: it never starts recognition.
    With no renderer it returns normally. *)
Theorem handler_frame pw w ev self :
  let run := RT._handle_transcription pw w ev self in
  RT.audio_capture (final run) = RT.audio_capture self
  /\ RT.translation (final run) = RT.translation self
  /\ RT.is_running (final run) = RT.is_running self
  /\ STT.recognizer (RT.speech_to_text (final run))
     = STT.recognizer (RT.speech_to_text self)
  /\ (device_events (trace run) = []
      \/ device_events (trace run) = [stop_continuous_recognition])
  /\ (RT.subtitle_renderer self = None ->
      outcome run = Py.Ok tt /\ RT.subtitle_renderer (final run) = None).
Proof.
  cbv zeta. rewrite handler_steps.
  destruct (negb (RT.is_running self) || Py.is_empty (STT.text ev)).
  { unfold final, trace, outcome. cbn.
    repeat split; try reflexivity; try assumption. left; reflexivity. }
  destruct (detection_step_run w ev self)
    as (self1 & t1 & Hd & Hac & Htl & Hsr & Hr & Hz & Hq & _ & _).
  destruct (display_step_run pw (RT.translation_net w) (STT.text ev) self1)
    as (tr & t2 & _ & _ & Hq2 & Hs).
  unfold bind. rewrite Hd, Hs.
  unfold final, trace, outcome.
  destruct (RT.subtitle_renderer self1) as [r|] eqn:Hsr1.
  - cbv zeta.
    destruct (SR.show_subtitle pw (TR.translated_text tr) None r)
      as [[res r'] t'].
    cbn [fst snd].
    rewrite !device_events_app, Hq2. cbn [device_events List.filter app].
    rewrite app_nil_r.
    destruct self1; cbn in *.
    repeat split; try assumption; congruence.
  - cbn [fst snd]. rewrite !device_events_app, Hq2, app_nil_r.
    repeat split; try assumption; congruence.
Qed.

(** X16: the caption of a transcript.  On a running pipeline with a
    renderer, a transcript with a text is shown as one new caption, with
    no speaker.  The caption is empty when the text is blank; it is the
    text itself, with no request to the translator, when the language
    current after detection is the target language; otherwise exactly
    one request goes out, from the current language to the target
    language, and the caption is the translator's first translation when
    it gives one and the text itself when it gives none. *)
Theorem handler_caption pw w ev self r :
  RT.is_running self = true ->
  STT.text ev <> [] ->
  RT.subtitle_renderer self = Some r ->
  let run := RT._handle_transcription pw w ev self in
  let text := STT.text ev in
  let source := RT.current_language (final run) in
  let target := TR.target_language (RT.translation self) in
  exists caption,
    RT.subtitle_renderer (final run)
    = Some (final (SR.show_subtitle pw caption None r))
    /\ last (calls (trace run))
       = Some (Method.show_subtitle caption None)
    /\ (Py.is_empty (Py.strip text) = true ->
        caption = [] /\ translate_requests (trace run) = [])
    /\ (Py.is_empty (Py.strip text) = false -> source = target ->
        caption = text /\ translate_requests (trace run) = [])
    /\ (Py.is_empty (Py.strip text) = false -> source <> target ->
        translate_requests (trace run) = [post_translate text source target]
        /\ (forall s, translates (RT.translation_net w) s -> caption = s)
        /\ ((forall s, ~ translates (RT.translation_net w) s) ->
            caption = text)).
Proof.
  intros Hrun Htext Hsr. cbv zeta.
  assert (Hne : Py.is_empty (STT.text ev) = false)
    by (destruct (STT.text ev); [congruence|reflexivity]).
  destruct (detection_step_run w ev self)
    as (self1 & t1 & Hd & _ & Htl & _ & _ & _ & _ & Hp & _).
  destruct (handler_run pw w ev self Hrun Hne)
    as (self1' & t1' & tr & t2 & Hd' & Htr & _ & Hh).
  rewrite Hd in Hd'. injection Hd' as <- <-.
  rewrite Hh, Hsr. cbv zeta. unfold final at 1 3 4 5 6, trace. cbn [fst snd].
  assert (Hcl : RT.current_language
                  (RT.set_subtitle_renderer
                     (final (SR.show_subtitle pw (TR.translated_text tr)
                               None r)) self1)
                = RT.current_language self1) by (destruct self1; reflexivity).
  assert (Hsr' : RT.subtitle_renderer
                   (RT.set_subtitle_renderer
                      (final (SR.show_subtitle pw (TR.translated_text tr)
                                None r)) self1)
                 = Some (final (SR.show_subtitle pw (TR.translated_text tr)
                                  None r))) by (destruct self1; reflexivity).
  rewrite Hcl, Hsr'.
  exists (TR.translated_text tr).
  split; [reflexivity|].
  split.
  { rewrite app_assoc, calls_app. cbn [calls]. apply last_snoc. }
  rewrite !translate_requests_app, Hp. cbn [app translate_requests List.filter].
  rewrite app_nil_r.
  split; [|split].
  - intros Hb.
    rewrite (translate_text_blank _ _ _ _ Hb) in Htr.
    injection Htr as <- <-. split; reflexivity.
  - intros Hb Heq.
    rewrite (translate_text_same _ _ _ _ Hb Heq) in Htr.
    injection Htr as <- <-. split; reflexivity.
  - intros Hb Hneq.
    destruct (translate_text_posts (RT.translation_net w) (STT.text ev)
                (RT.current_language self1) (RT.translation self) Hb Hneq)
      as (caption & Hrun' & Hs & Hn).
    rewrite Hrun' in Htr. injection Htr as <- <-.
    split; [reflexivity|]. split; assumption.
Qed.

Lemma handler_caption_witness :
  let run := RT._handle_transcription SR.module_parent_window world0
               interim_hola (running0 (Py.lit "es")) in
  RT.is_running (running0 (Py.lit "es")) = true
  /\ STT.text interim_hola <> []
  /\ RT.subtitle_renderer (running0 (Py.lit "es")) = Some renderer0
  /\ last (calls (trace run))
     = Some (Method.show_subtitle (Py.lit "Hello") None).
Proof.
  cbv zeta.
  assert (H1 : RT.is_running (running0 (Py.lit "es")) = true)
    by reflexivity.
  assert (H2 : STT.text interim_hola <> []) by discriminate.
  assert (H3 : RT.subtitle_renderer (running0 (Py.lit "es"))
               = Some renderer0) by reflexivity.
  split; [exact H1|]. split; [exact H2|]. split; [exact H3|].
  destruct (handler_caption SR.module_parent_window world0 interim_hola
              (running0 (Py.lit "es")) renderer0 H1 H2 H3)
    as (caption & _ & Hlast & _ & _ & Hc).
  assert (Hb : Py.is_empty (Py.strip (STT.text interim_hola)) = false)
    by reflexivity.
  assert (Hne : RT.current_language
                  (final (RT._handle_transcription SR.module_parent_window
                            world0 interim_hola (running0 (Py.lit "es"))))
                <> TR.target_language
                     (RT.translation (running0 (Py.lit "es"))))
    by (vm_compute; discriminate).
  destruct (Hc Hb Hne) as (_ & Hs & _).
  rewrite Hlast. f_equal. f_equal.
  apply Hs. exists [], []. reflexivity.
Defined.

(** The run of the handler past the detection half: what is left of the
    detection in the final state and in the trace. *)
Lemma handler_after_detection pw w ev self :
  RT.is_running self = true ->
  Py.is_empty (STT.text ev) = false ->
  let run := RT._handle_transcription pw w ev self in
  exists self1 t1,
    detection_step w ev self = (Py.Ok tt, self1, t1)
    /\ RT.current_language (final run) = RT.current_language self1
    /\ RT.speech_to_text (final run) = RT.speech_to_text self1
    /\ RT.language_detection (final run) = RT.language_detection self1
    /\ device_events (trace run) = device_events t1
    /\ In (Method.translate_text (STT.text ev) (RT.current_language self1))
          (calls (trace run)).
Proof.
  intros Hrun Htext. cbv zeta.
  destruct (handler_run pw w ev self Hrun Htext)
    as (self1 & t1 & tr & t2 & Hd & Htr & Hq & Hh).
  destruct (translate_text_returns (RT.translation_net w) (STT.text ev)
              (RT.current_language self1) (RT.translation self))
    as (tr' & t2' & Htr' & Hc).
  rewrite Htr in Htr'. injection Htr' as <- <-.
  exists self1, t1. split; [exact Hd|].
  rewrite Hh. unfold final, trace.
  destruct (RT.subtitle_renderer self); cbv zeta; cbn [fst snd];
    rewrite ?device_events_app, ?calls_app, Hq, Hc;
    cbn [app device_events List.filter]; rewrite ?app_nil_r;
    destruct self1; cbn;
    (repeat split; try reflexivity);
    apply in_or_app; right; left; reflexivity.
Qed.

(** The detection half on a final transcript longer than 15
    characters. *)
Lemma detection_step_final w ev self h :
  STT.is_final ev = true ->
  15 < Py.len (STT.text ev) ->
  outcome (LD.detect_language (RT.detection_clock w) (RT.detection_net w)
             (STT.text ev) (RT.language_detection self)) = Py.Ok h ->
  let stt := RT.speech_to_text self in
  exists self1 t1,
    detection_step w ev self = (Py.Ok tt, self1, t1)
    /\ RT.language_detection self1
       = final (LD.detect_language (RT.detection_clock w)
                  (RT.detection_net w) (STT.text ev)
                  (RT.language_detection self))
    /\ (LD.language_code h <> RT.current_language self ->
        RT.current_language self1 = LD.language_code h
        /\ RT.speech_to_text self1
           = STT.set_speech_recognition_language
               (default (LD.language_code h)
                  (STT.language_map stt !! LD.language_code h))
               (if STT.recognizer stt && STT.is_recognizing stt
                then STT.set_is_recognizing false stt else stt)
        /\ device_events t1
           = if STT.recognizer stt && STT.is_recognizing stt
             then [stop_continuous_recognition] else [])
    /\ (LD.language_code h = RT.current_language self ->
        RT.current_language self1 = RT.current_language self
        /\ RT.speech_to_text self1 = stt
        /\ device_events t1 = []).
Proof.
  intros Hfin Hlen Hh. cbv zeta.
  unfold detection_step. cbv zeta.
  apply Z.ltb_lt in Hlen. rewrite Hfin, Hlen. cbn [andb].
  destruct (detect_language_quiet (RT.detection_clock w) (RT.detection_net w)
              (STT.text ev) (RT.language_detection self))
    as (h' & ld' & t & Hd & _ & Hq & _).
  rewrite Hd in Hh. unfold outcome in Hh. cbn in Hh.
  injection Hh as ->.
  unfold RT.on_language_detection, RT.on_speech_to_text. run. rewrite Hd.
  destruct self as [ac ld stt tl sr cl running].
  cbn [RT.language_detection RT.set_language_detection RT.current_language
       RT.speech_to_text RT.set_current_language fst snd] in *.
  unfold Py.eqb. destruct (decide (LD.language_code h = cl)) as [He|He].
  - rewrite bool_decide_eq_true_2 by exact He. cbn [negb].
    eexists _, _. split; [reflexivity|]. rewrite app_nil_r.
    split; [reflexivity|]. split.
    + intros H. contradiction.
    + intros _. repeat split. exact Hq.
  - rewrite bool_decide_eq_false_2 by exact He. cbn [negb].
    destruct (set_language_run (LD.language_code h) stt)
      as (t2 & Hs & _ & Hq2 & _).
    cbn [RT.speech_to_text RT.set_language_detection].
    rewrite Hs. eexists _, _. split; [reflexivity|].
    split; [reflexivity|]. split.
    + intros _. cbn. repeat split.
      rewrite device_events_app, Hq, Hq2. reflexivity.
    + intros H. contradiction.
Qed.

(** X17: a final transcript longer than 15 characters is the only one
    that can change the language.  When the language detection returns
    another language than the current one, the handler makes it the
    current language, gives the recognizer its region code and, when a
    recognizer exists, stops recognition without starting it again: the
    pipeline stays running with a recognizer that is no longer
    recognizing.  The transcript itself is then translated from the new
    language.  When the detection returns the current language, the
    recognizer and the current language stay as they are. *)
Theorem final_transcript_switches_language pw w ev self h :
  RT.is_running self = true ->
  STT.is_final ev = true ->
  15 < Py.len (STT.text ev) ->
  outcome (LD.detect_language (RT.detection_clock w) (RT.detection_net w)
             (STT.text ev) (RT.language_detection self)) = Py.Ok h ->
  let run := RT._handle_transcription pw w ev self in
  let stt := RT.speech_to_text self in
  In (Method.translate_text (STT.text ev) (LD.language_code h))
     (calls (trace run))
  /\ RT.is_running (final run) = true
  /\ (LD.language_code h <> RT.current_language self ->
      RT.current_language (final run) = LD.language_code h
      /\ STT.speech_recognition_language (RT.speech_to_text (final run))
         = default (LD.language_code h)
             (STT.language_map stt !! LD.language_code h)
      /\ STT.is_recognizing (RT.speech_to_text (final run))
         = STT.is_recognizing stt && negb (STT.recognizer stt)
      /\ device_events (trace run)
         = if STT.recognizer stt && STT.is_recognizing stt
           then [stop_continuous_recognition] else [])
  /\ (LD.language_code h = RT.current_language self ->
      RT.current_language (final run) = RT.current_language self
      /\ RT.speech_to_text (final run) = stt
      /\ device_events (trace run) = []).
Proof.
  intros Hrun Hfin Hlen Hh. cbv zeta.
  assert (Htext : Py.is_empty (STT.text ev) = false).
  { destruct (STT.text ev); [vm_compute in Hlen; discriminate|reflexivity]. }
  destruct (handler_after_detection pw w ev self Hrun Htext)
    as (self1 & t1 & Hd & Hcl & Hstt & _ & Hq & Hin).
  destruct (detection_step_final w ev self h Hfin Hlen Hh)
    as (self1' & t1' & Hd' & _ & Hne & Heq).
  rewrite Hd in Hd'. injection Hd' as <- <-.
  destruct (detection_step_run w ev self)
    as (self1' & t1' & Hd' & _ & _ & _ & Hr & _).
  rewrite Hd in Hd'. injection Hd' as <- <-.
  split; [|split; [|split]].
  - destruct (decide (LD.language_code h = RT.current_language self))
      as [He|He].
    + destruct (Heq He) as (Hc & _). rewrite He, <- Hc. exact Hin.
    + destruct (Hne He) as (Hc & _). rewrite <- Hc. exact Hin.
  - destruct (handler_run pw w ev self Hrun Htext)
      as (s' & t' & tr & t2 & Hd'' & _ & _ & Hh').
    rewrite Hd in Hd''. injection Hd'' as <- <-.
    rewrite Hh'. unfold final.
    destruct (RT.subtitle_renderer self); cbv zeta; cbn [fst snd];
      destruct self1; cbn in *; congruence.
  - intros He. destruct (Hne He) as (Hc & Hs & Hdev).
    rewrite Hcl, Hstt, Hq, Hs, Hc, Hdev.
    repeat split.
    destruct (RT.speech_to_text self) as [lang [] [] cb lm]; reflexivity.
  - intros He. destruct (Heq He) as (Hc & Hs & Hdev).
    rewrite Hcl, Hstt, Hq, Hs, Hc, Hdev. repeat split.
Qed.

Lemma final_transcript_switches_language_witness :
  let ev := {| STT.text := Py.lit "Buenos dias a todos";
               STT.is_final := true; STT.language_code := Py.lit "es-ES" |} in
  let run := RT._handle_transcription SR.module_parent_window world0 ev
               (running0 (Py.lit "es")) in
  RT.is_running (running0 (Py.lit "es")) = true
  /\ STT.is_final ev = true
  /\ 15 < Py.len (STT.text ev)
  /\ outcome (LD.detect_language (RT.detection_clock world0)
                (RT.detection_net world0) (STT.text ev)
                (RT.language_detection (running0 (Py.lit "es"))))
     = Py.Ok LD.default_hypothesis
  /\ RT.current_language (final run) = Py.lit "en"
  /\ device_events (trace run) = [stop_continuous_recognition].
Proof.
  cbv zeta.
  pose (ev := {| STT.text := Py.lit "Buenos dias a todos";
                 STT.is_final := true;
                 STT.language_code := Py.lit "es-ES" |}).
  assert (H3 : 15 < Py.len (STT.text ev)) by reflexivity.
  assert (Hne : LD.language_code LD.default_hypothesis
                <> RT.current_language (running0 (Py.lit "es")))
    by discriminate.
  split; [reflexivity|]. split; [reflexivity|]. split; [exact H3|].
  split; [reflexivity|].
  destruct (final_transcript_switches_language SR.module_parent_window
              world0 ev (running0 (Py.lit "es")) LD.default_hypothesis
              eq_refl eq_refl H3 eq_refl)
    as (_ & _ & Hsw & _).
  destruct (Hsw Hne) as (Hc & _ & _ & Hd).
  split; [exact Hc|exact Hd].
Defined.



(** X19: what the handler reads of a transcript: its text, and, for a
    text longer than 15 characters only, whether it is final.  The
    language code the recognizer sends along is never read, and a final
    transcript of at most 15 characters is handled as an interim one. *)
Theorem handler_reads pw w ev ev' self :
  STT.text ev = STT.text ev' ->
  (15 < Py.len (STT.text ev) -> STT.is_final ev = STT.is_final ev') ->
  RT._handle_transcription pw w ev self
  = RT._handle_transcription pw w ev' self.
Proof.
  intros Ht Hf. rewrite !handler_steps.
  assert (Hd : detection_step w ev = detection_step w ev').
  { unfold detection_step. cbv zeta. rewrite <- Ht.
    destruct (15 <? Py.len (STT.text ev)) eqn:Hlen.
    - apply Z.ltb_lt in Hlen. rewrite (Hf Hlen). reflexivity.
    - rewrite !andb_false_r. reflexivity. }
  rewrite Hd, Ht. reflexivity.
Qed.

Lemma handler_reads_witness :
  let ev' := {| STT.text := Py.lit "Hola"; STT.is_final := true;
                STT.language_code := Py.lit "fr-FR" |} in
  STT.text interim_hola = STT.text ev'
  /\ (15 < Py.len (STT.text interim_hola) ->
      STT.is_final interim_hola = STT.is_final ev')
  /\ RT._handle_transcription SR.module_parent_window world0 interim_hola
       (running0 (Py.lit "es"))
     = RT._handle_transcription SR.module_parent_window world0 ev'
         (running0 (Py.lit "es")).
Proof.
  cbv zeta.
  assert (H2 : 15 < Py.len (STT.text interim_hola) ->
               STT.is_final interim_hola = true)
    by (intros H; vm_compute in H; discriminate).
  split; [reflexivity|]. split; [exact H2|].
  exact (handler_reads SR.module_parent_window world0 interim_hola
           {| STT.text := Py.lit "Hola"; STT.is_final := true;
              STT.language_code := Py.lit "fr-FR" |}
           (running0 (Py.lit "es")) eq_refl H2).
Defined.

(** ** The application window *)

Lemma handler_keeps pw w ev self :
  let run := RT._handle_transcription pw w ev self in
  RT.is_running (final run) = RT.is_running self
  /\ (RT.subtitle_renderer self <> None ->
      RT.subtitle_renderer (final run) <> None).
Proof.
  cbv zeta. rewrite handler_steps.
  destruct (negb (RT.is_running self) || Py.is_empty (STT.text ev)).
  { split; [reflexivity|]. intros H. exact H. }
  destruct (detection_step_run w ev self)
    as (self1 & t1 & Hd & _ & _ & Hsr & Hr & _).
  destruct (display_step_run pw (RT.translation_net w) (STT.text ev) self1)
    as (tr & t2 & _ & _ & _ & Hs).
  assert (E : bind (detection_step w ev)
                (fun _ => display_step pw (RT.translation_net w)
                            (STT.text ev)) self
              = let '(r, s2, t2) :=
                  display_step pw (RT.translation_net w) (STT.text ev)
                    self1 in
                (r, s2, t1 ++ t2))
    by (unfold bind; rewrite Hd; reflexivity).
  rewrite E, Hs. unfold final.
  destruct (RT.subtitle_renderer self1) as [r|] eqn:Hsr1;
    cbv zeta; cbn [fst snd].
  - destruct self1; cbn in *. split; [exact Hr|]. intros _. discriminate.
  - split; [exact Hr|]. congruence.
Qed.

Lemma stop_unbound self :
  RT.is_running self = true ->
  RT.subtitle_renderer self <> None ->
  let run := RT.stop None self in
  outcome run = Py.Raised (Py.NameError "parent_window")
  /\ RT.is_running (final run) = true
  /\ RT.subtitle_renderer (final run) <> None.
Proof.
  intros Hrun Hsr. cbv zeta.
  destruct self as [[st rec] ld [lang rz isrec cb lm] tr sr cl running].
  cbn in Hrun, Hsr. subst running.
  destruct sr as [[ft ml subs fade labels root]|]; [|congruence].
  unfold RT.stop, RT.on_audio_capture, RT.on_speech_to_text,
    RT.if_subtitle_renderer, AC.stop_recording, STT.stop_recognition.
  renderer_unfold. run.
  cbn [RT.is_running RT.subtitle_renderer negb].
  destruct fade, st, rec, rz, isrec; cbn; repeat split; discriminate.
Qed.

Lemma start_refused opens sdk self :
  RT.is_running self = true ->
  RT.start opens sdk self = (Py.Ok false, self, []).
Proof. intros H. unfold RT.start. run. rewrite H. reflexivity. Qed.

Lemma start_system_buttons opens sdk self :
  buttons_agree self ->
  buttons_agree (APP.callback (APP.start_system opens sdk) self).
Proof.
  unfold buttons_agree.
  destruct self as [b1 b2 status
    [[st rec] ld [lang rz isrec cb lm] tr sr cl running]].
  cbn. intros [-> ->].
  destruct running, opens, sdk, st, rec, rz, isrec; split; reflexivity.
Qed.

Lemma stop_system_buttons pw self :
  buttons_agree self ->
  buttons_agree (APP.callback (APP.stop_system pw) self).
Proof.
  unfold buttons_agree.
  destruct self as [b1 b2 status
    [[st rec] ld [lang rz isrec cb lm] tr sr cl running]].
  cbn. intros [-> ->].
  unfold APP.callback, APP.stop_system, APP.on_subtitle_system,
    RT.stop, RT.on_audio_capture, RT.on_speech_to_text,
    RT.if_subtitle_renderer, AC.stop_recording, STT.stop_recognition.
  renderer_unfold. run.
  cbn [RT.is_running RT.subtitle_renderer negb APP.subtitle_system
       APP.set_status_var].
  destruct running; [|split; reflexivity].
  destruct pw as [[]|], sr as [[ft ml subs [id|] labels root]|];
    destruct st, rec, rz, isrec; split; reflexivity.
Qed.

(** X20: the two buttons always tell whether the pipeline runs.  From a
    window in which [Start] is enabled exactly when the pipeline is not
    running and [Stop] exactly when it is, as after [__init__], this
    stays so after every event: presses of either button (also when
    [start] or [stop] returns [False] or raises), changes of language,
    transcripts and fades. *)
Theorem buttons_follow_running_flag pw self self' :
  buttons_agree self ->
  APP.reachable pw self self' ->
  buttons_agree self'.
Proof.
  intros H0 Hr. induction Hr as [|self1 self2 _ IH Hs]; [exact H0|].
  destruct Hs as [opens sdk self1|self1|language self1|w ev self1
                 |limit r self1 Hsr].
  - apply start_system_buttons, IH.
  - apply stop_system_buttons, IH.
  - destruct IH as [H1 H2]. unfold buttons_agree.
    destruct self1 as [b1 b2 status
      [ac ld stt tr sr cl running]]. cbn in H1, H2 |- *.
    split; assumption.
  - destruct IH as [H1 H2]. unfold buttons_agree.
    destruct (handler_keeps pw w ev (APP.subtitle_system self1)) as [Hk _].
    destruct self1 as [b1 b2 status sys].
    cbn [APP.start_button APP.stop_button APP.subtitle_system
         APP.set_subtitle_system] in *.
    rewrite Hk. split; assumption.
  - destruct IH as [H1 H2]. unfold buttons_agree.
    destruct self1 as [b1 b2 status
      [ac ld stt tr sr cl running]]. cbn in H1, H2 |- *.
    split; assumption.
Qed.

Lemma buttons_follow_running_flag_witness :
  let self := APP.init (system0 (Py.lit "en")) in
  let self' :=
    APP.callback (APP.stop_system SR.module_parent_window)
      (APP.callback (APP.start_system true STT.SdkStarts) self) in
  buttons_agree self
  /\ APP.reachable SR.module_parent_window self self'
  /\ APP.stop_button self' = true
  /\ RT.is_running (APP.subtitle_system self') = true.
Proof.
  cbv zeta.
  assert (H0 : buttons_agree (APP.init (system0 (Py.lit "en"))))
    by (split; reflexivity).
  assert (Hr : APP.reachable SR.module_parent_window
                 (APP.init (system0 (Py.lit "en")))
                 (APP.callback (APP.stop_system SR.module_parent_window)
                    (APP.callback (APP.start_system true STT.SdkStarts)
                       (APP.init (system0 (Py.lit "en")))))).
  { eapply APP.reachable_step; [|apply APP.step_stop].
    eapply APP.reachable_step; [|apply APP.step_start].
    apply APP.reachable_refl. }
  split; [exact H0|]. split; [exact Hr|].
  destruct (buttons_follow_running_flag _ _ _ H0 Hr) as [_ H2].
  split; [rewrite H2|]; reflexivity.
Defined.

(** X21: with the overlay in place the application cannot be stopped.
    As the module stands ([parent_window] unbound), once the pipeline
    runs with a renderer, no sequence of events brings it back: every
    press of [Stop] ends on the [NameError] of [clear], which Tk reports,
    so the pipeline keeps running with its renderer and the status never
    reads "Stopped". *)
Theorem app_never_stops self self' :
  RT.is_running (APP.subtitle_system self) = true ->
  RT.subtitle_renderer (APP.subtitle_system self) <> None ->
  APP.status_var self <> Py.lit "Stopped" ->
  APP.reachable SR.module_parent_window self self' ->
  RT.is_running (APP.subtitle_system self') = true
  /\ RT.subtitle_renderer (APP.subtitle_system self') <> None
  /\ APP.status_var self' <> Py.lit "Stopped".
Proof.
  intros Hrun Hsr Hst Hr.
  induction Hr as [|self1 self2 _ (IHr & IHs & IHt) Hs];
    [split; [exact Hrun|split; [exact Hsr|exact Hst]]|].
  destruct Hs as [opens sdk self1|self1|language self1|w ev self1
                 |limit r self1 Hsr1].
  - unfold APP.callback, APP.start_system, APP.on_subtitle_system. run.
    cbn [APP.subtitle_system APP.set_status_var].
    rewrite (start_refused opens sdk _ IHr).
    cbn. split; [exact IHr|]. split; [exact IHs|]. discriminate.
  - destruct (stop_unbound _ IHr IHs) as (Ho & Hrn & Hrd).
    unfold APP.callback, APP.stop_system, APP.on_subtitle_system. run.
    cbn [APP.subtitle_system APP.set_status_var].
    unfold outcome, final in Ho, Hrn, Hrd. unfold SR.module_parent_window.
    destruct (RT.stop None (APP.subtitle_system self1)) as [[res s'] t'].
    cbn [fst snd] in Ho, Hrn, Hrd. subst res.
    cbn. split; [exact Hrn|]. split; [exact Hrd|]. discriminate.
  - destruct self1 as [b1 b2 status [ac ld stt tr sr cl running]].
    cbn in IHr, IHs |- *.
    split; [exact IHr|]. split; [exact IHs|]. discriminate.
  - destruct (handler_keeps SR.module_parent_window w ev
                (APP.subtitle_system self1)) as [Hk Hk'].
    destruct self1 as [b1 b2 status sys].
    cbn [APP.status_var APP.subtitle_system APP.set_subtitle_system] in *.
    rewrite Hk. split; [exact IHr|]. split; [exact (Hk' IHs)|exact IHt].
  - destruct self1 as [b1 b2 status [ac ld stt tr sr cl running]].
    cbn in IHr, IHt |- *.
    split; [exact IHr|]. split; [discriminate|exact IHt].
Qed.

Lemma app_never_stops_witness :
  let self := APP.callback (APP.start_system true STT.SdkStarts)
                (APP.init (system0 (Py.lit "en"))) in
  let self' := APP.callback (APP.stop_system SR.module_parent_window) self in
  RT.is_running (APP.subtitle_system self) = true
  /\ RT.subtitle_renderer (APP.subtitle_system self) <> None
  /\ APP.status_var self = Py.lit "Running"
  /\ APP.reachable SR.module_parent_window self self'
  /\ RT.is_running (APP.subtitle_system self') = true
  /\ APP.status_var self' = Py.lit "Stopping...".
Proof.
  cbv zeta.
  pose (self := APP.callback (APP.start_system true STT.SdkStarts)
                  (APP.init (system0 (Py.lit "en")))).
  assert (H1 : RT.is_running (APP.subtitle_system self) = true)
    by reflexivity.
  assert (H2 : RT.subtitle_renderer (APP.subtitle_system self) <> None)
    by discriminate.
  assert (H3 : APP.status_var self <> Py.lit "Stopped") by discriminate.
  assert (Hr : APP.reachable SR.module_parent_window self
                 (APP.callback (APP.stop_system SR.module_parent_window)
                    self)).
  { eapply APP.reachable_step; [apply APP.reachable_refl|].
    apply APP.step_stop. }
  split; [exact H1|]. split; [exact H2|]. split; [reflexivity|].
  split; [exact Hr|].
  split; [exact (proj1 (app_never_stops _ _ H1 H2 H3 Hr))|reflexivity].
Defined.

(** ** The server *)

(** X22: the reply to an audio chunk.  [process_audio] sends the client
    at most one event, after all its requests, always in the client's own
    room.  It is [processing_error] exactly when the chunk is not
    [bytes], is shorter than 16000 bytes, or the token had to be
    refreshed and could not be; then no audio has been sent to the
    recognition service.  It is [translation_result] exactly when the
    chunk is accepted, a token is at hand and the recognized text is not
    empty; then the original is the recognized text, the detected
    language is always "en", and the translation is the translator's
    when a key is set and it answers, and the original otherwise.
    Nothing is sent when the recognition gives no text. *)
Theorem process_audio_reply translator_key w sid audio_data self :
  let '(self', t) := SV.process_audio translator_key w sid audio_data self in
  t = posts t ++ emits t
  /\ match emits t with
     | [] => long_enough audio_data /\ SV.recognized_text w = []
     | [SV.emit_processing_error sid' e] =>
         sid' = sid
         /\ (forall token audio, ~ In (SV.post_recognition token audio) t)
         /\ match e with
            | SV.AudioMustBeBytes => audio_data = SV.NotBytes /\ self' = self
            | SV.AudioTooShort n =>
                exists audio,
                  audio_data = SV.Bytes audio /\ n = length audio
                  /\ Z.of_nat n < 16000 /\ self' = self /\ posts t = []
            | SV.TokenRefreshFailed =>
                long_enough audio_data /\ SV.issuetoken w = None
                /\ self' = self /\ posts t = [SV.post_issuetoken]
            end
     | [SV.emit_translation_result sid' original translated detected] =>
         sid' = sid /\ detected = Py.lit "en"
         /\ long_enough audio_data
         /\ original = SV.recognized_text w /\ original <> []
         /\ translated
            = (if translator_key then default original (SV.translation w)
               else original)
     | _ => False
     end.
Proof.
  unfold SV.process_audio, SV.speech_to_text, SV.validate_audio_format,
    SV.translate_text, SV.refresh, long_enough.
  destruct audio_data as [audio|].
  2: { cbn. repeat split. intros token audio [H|[]]. discriminate. }
  destruct (Z.of_nat (length audio) <? 16000) eqn:Hlen.
  { apply Z.ltb_lt in Hlen. cbn. repeat split.
    - intros token a [H|[]]. discriminate.
    - exists audio. repeat split. exact Hlen. }
  apply Z.ltb_ge in Hlen.
  destruct (PrimFloat.leb (SV.expires_at self) (SV.time_at_check w)
            || SV.no_token self);
    [destruct (SV.issuetoken w) as [text|] eqn:Htok|]; cbn [negb].
  2: { cbn. repeat split; try assumption.
       intros token a [H|[H|[]]]; discriminate. }
  all: destruct (SV.recognized_text w) as [|c text'] eqn:Hrec;
    cbn [Py.is_empty orb];
    [cbn; repeat split; assumption|].
  all: destruct translator_key; cbn [negb];
    [destruct (SV.translation w)|]; cbn;
    repeat split; try assumption; discriminate.
Qed.

(** X23: a token lasts nine minutes.  After a [connect] whose refresh
    the token service answers with a non-empty text, every accepted audio
    chunk whose clock reading is earlier than 540 seconds after that
    refresh goes to the recognition service with this very token, with no
    request to the token service and with no change to the stored
    token. *)
Theorem token_is_reused translator_key w0 w sid0 sid audio_data self0 text :
  SV.issuetoken w0 = Some text ->
  text <> [] ->
  PrimFloat.leb (PrimFloat.add (SV.time_at_refresh w0) 540)
    (SV.time_at_check w) = false ->
  16000 <= Z.of_nat (length audio_data) ->
  let self := snd (fst (SV.connect w0 sid0 self0)) in
  let run :=
    SV.process_audio translator_key w sid (SV.Bytes audio_data) self in
  fst (fst (SV.connect w0 sid0 self0)) = true
  /\ SV.token self = Some text
  /\ fst run = self
  /\ ~ In SV.post_issuetoken (snd run)
  /\ hd_error (snd run)
     = Some (SV.post_recognition (Some text) audio_data).
Proof.
  intros Htok Hne Hfresh Hlen. cbv zeta.
  unfold SV.connect, SV.refresh. rewrite Htok. cbn [fst snd].
  unfold SV.process_audio, SV.speech_to_text, SV.validate_audio_format,
    SV.translate_text, SV.no_token.
  apply Z.ltb_ge in Hlen. rewrite Hlen.
  cbn [SV.expires_at SV.token]. rewrite Hfresh.
  destruct text as [|c text]; [congruence|].
  cbn [Py.is_empty orb negb app].
  destruct (SV.recognized_text w) as [|c' text']; cbn;
    [|destruct translator_key; cbn];
    repeat split; try reflexivity;
    intros H; decompose [or] H; discriminate || contradiction.
Qed.

Lemma token_is_reused_witness :
  let w0 := {| SV.time_at_check := 1000; SV.time_at_refresh := 1000;
               SV.issuetoken := Some (Py.lit "t0"); SV.recognition := None;
               SV.translation := None |} in
  let w := {| SV.time_at_check := 1539; SV.time_at_refresh := 1539;
              SV.issuetoken := None;
              SV.recognition :=
                Some (Some (Py.lit "Success"), Some (Py.lit "Hello"));
              SV.translation := None |} in
  let audio_data := repeat Byte.x00 (Z.to_nat 16000) in
  SV.issuetoken w0 = Some (Py.lit "t0")
  /\ Py.lit "t0" <> []
  /\ PrimFloat.leb (PrimFloat.add (SV.time_at_refresh w0) 540)
       (SV.time_at_check w) = false
  /\ 16000 <= Z.of_nat (length audio_data)
  /\ ~ In SV.post_issuetoken
         (snd (SV.process_audio true w (Py.lit "b") (SV.Bytes audio_data)
                 (snd (fst (SV.connect w0 (Py.lit "a") SV.azure_token))))).
Proof.
  cbv zeta.
  assert (H2 : Py.lit "t0" <> []) by discriminate.
  assert (H4 : 16000 <= Z.of_nat (length (repeat Byte.x00 (Z.to_nat 16000))))
    by (rewrite repeat_length; lia).
  split; [reflexivity|]. split; [exact H2|]. split; [reflexivity|].
  split; [exact H4|].
  exact (proj1 (proj2 (proj2 (proj2
           (token_is_reused true
              {| SV.time_at_check := 1000; SV.time_at_refresh := 1000;
                 SV.issuetoken := Some (Py.lit "t0");
                 SV.recognition := None; SV.translation := None |}
              {| SV.time_at_check := 1539; SV.time_at_refresh := 1539;
                 SV.issuetoken := None;
                 SV.recognition :=
                   Some (Some (Py.lit "Success"), Some (Py.lit "Hello"));
                 SV.translation := None |}
              (Py.lit "a") (Py.lit "b") (repeat Byte.x00 (Z.to_nat 16000))
              SV.azure_token (Py.lit "t0") eq_refl H2 eq_refl H4))))).
Defined.

(** X24: without a token in date nothing is recognized.  When the clock
    has reached [expires_at], or no token is stored (as on a server that
    has just started) or the stored one is empty, an accepted audio chunk
    first asks the token service.  If that fails, the client gets
    [processing_error], the audio goes nowhere and the token is left as
    it was; if it answers, the answer is stored, valid until 540 seconds
    after the refresh, and is the token the audio is sent with. *)
Theorem stale_token_is_refreshed translator_key w sid audio_data self :
  PrimFloat.leb (SV.expires_at self) (SV.time_at_check w) = true
  \/ SV.no_token self = true ->
  16000 <= Z.of_nat (length audio_data) ->
  let run :=
    SV.process_audio translator_key w sid (SV.Bytes audio_data) self in
  hd_error (snd run) = Some SV.post_issuetoken
  /\ match SV.issuetoken w with
     | Some text =>
         fst run
         = {| SV.token := Some text;
              SV.expires_at := PrimFloat.add (SV.time_at_refresh w) 540 |}
         /\ posts (snd run)
            = SV.post_issuetoken :: SV.post_recognition (Some text) audio_data
              :: (if Py.is_empty (SV.recognized_text w) || negb translator_key
                  then []
                  else [SV.post_translate (SV.recognized_text w)
                          (Py.lit "hi")])
     | None =>
         fst run = self
         /\ snd run
            = [SV.post_issuetoken;
               SV.emit_processing_error sid SV.TokenRefreshFailed]
     end.
Proof.
  intros Hstale Hlen. cbv zeta.
  unfold SV.process_audio, SV.speech_to_text, SV.validate_audio_format,
    SV.translate_text, SV.refresh.
  apply Z.ltb_ge in Hlen. rewrite Hlen.
  assert (Hg : PrimFloat.leb (SV.expires_at self) (SV.time_at_check w)
               || SV.no_token self = true).
  { destruct Hstale as [-> | ->]; [reflexivity|apply orb_true_r]. }
  rewrite Hg.
  destruct (SV.issuetoken w) as [text|]; cbn [negb];
    [|repeat split].
  destruct (SV.recognized_text w) as [|c' text']; cbn;
    [|destruct translator_key; cbn]; repeat split.
Qed.

Lemma stale_token_is_refreshed_witness :
  let w := {| SV.time_at_check := 1000; SV.time_at_refresh := 1001;
              SV.issuetoken := None; SV.recognition := None;
              SV.translation := None |} in
  let audio_data := repeat Byte.x00 (Z.to_nat 16000) in
  (PrimFloat.leb (SV.expires_at SV.azure_token) (SV.time_at_check w) = true
   \/ SV.no_token SV.azure_token = true)
  /\ 16000 <= Z.of_nat (length audio_data)
  /\ hd_error (snd (SV.process_audio true w (Py.lit "a")
                      (SV.Bytes audio_data) SV.azure_token))
     = Some SV.post_issuetoken.
Proof.
  cbv zeta.
  assert (H1 : PrimFloat.leb (SV.expires_at SV.azure_token) 1000 = true
               \/ SV.no_token SV.azure_token = true)
    by (right; reflexivity).
  assert (H2 : 16000 <= Z.of_nat (length (repeat Byte.x00 (Z.to_nat 16000))))
    by (rewrite repeat_length; lia).
  split; [exact H1|]. split; [exact H2|].
  exact (proj1 (stale_token_is_refreshed true
                  {| SV.time_at_check := 1000; SV.time_at_refresh := 1001;
                     SV.issuetoken := None; SV.recognition := None;
                     SV.translation := None |}
                  (Py.lit "a") (repeat Byte.x00 (Z.to_nat 16000)) SV.azure_token
                  H1 H2)).
Defined.
